(** * fastapi-example: the in-memory entity store and the job lifecycle runner

    A shallow embedding of [app/models.py], [app/storage.py] and the request
    handlers of [app/main.py] that the store contracts are about.

    Conventions of the embedding.
    - Python [int] is [Z] (unbounded), [str] is [string], [Optional[T]] is
      [option T], [list[str]] is [list string].
    - A Python [dict] keeps its keys in insertion order; it is an association
      list with unique keys ([PyDict]).
    - The two module-level singletons [task_storage] and [job_storage], and the
      process's standard output, are the fields of [World]; methods thread
      their receiver through the state monad [State].
    - [datetime.now()] is an input: a method that reads the clock takes the
      reading as its last argument [now].
    - [raise HTTPException(...)] is the left injection of the handler's
      result. *)

From Stdlib Require Import ZArith List String Ascii Bool Lia Sorted QArith.
From Stdlib Require Import DecimalString DecimalFacts DecimalNat.
Import ListNotations.

Local Open Scope Z_scope.

(** ** The state monad *)

Definition State (S A : Type) : Type := S -> A * S.

Definition ret {S A : Type} (a : A) : State S A := fun s => (a, s).

Definition bind {S A B : Type} (m : State S A) (k : A -> State S B) : State S B :=
  fun s => let (a, s') := m s in k a s'.

Definition gets {S A : Type} (f : S -> A) : State S A := fun s => (f s, s).

Definition modify {S : Type} (f : S -> S) : State S unit := fun s => (tt, f s).

Definition eval_state {S A : Type} (m : State S A) (s : S) : A := fst (m s).

Definition exec_state {S A : Type} (m : State S A) (s : S) : S := snd (m s).

Declare Scope state_scope.
Delimit Scope state_scope with state.
Notation "x <- c ;; k" := (bind c (fun x => k))
  (at level 61, c at next level, right associativity) : state_scope.
Notation "c ;; k" := (bind c (fun _ => k))
  (at level 61, right associativity) : state_scope.
Local Open Scope state_scope.

(** ** Python values *)

(** A [datetime] is a point on the wall clock, in microseconds. *)
Definition datetime : Type := Z.

(** A [float] number of seconds; only ever handed to [time.sleep]. *)
Definition float : Type := Q.

(** [str(n)] for an [int]. *)
Definition str_of_int (n : Z) : string := NilZero.string_of_int (Z.to_int n).

(** [str(len(l))]. *)
Definition str_of_len {A : Type} (l : list A) : string :=
  NilZero.string_of_uint (Nat.to_uint (List.length l)).





(** Truth value of an [Optional[str]]: [None] and the empty string are false. *)
Definition truthy (o : option string) : bool :=
  match o with
  | None => false
  | Some s => negb (String.eqb s "")
  end.

(** [x == o] for a [str] and an [Optional[str]]: no string equals [None]. *)
Definition str_eq_opt (x : string) (o : option string) : bool :=
  match o with
  | None => false
  | Some s => String.eqb x s
  end.

(** [x in l] for a list of strings. *)
Definition str_in (x : string) (l : list string) : bool := existsb (String.eqb x) l.

(** Keys of a [dict]: equality is decidable. *)
Class Hashable (K : Type) : Type := key_eq_dec : forall a b : K, {a = b} + {a <> b}.

#[export] Instance int_Hashable : Hashable Z := Z.eq_dec.
#[export] Instance str_Hashable : Hashable string := string_dec.

(** ** Insertion-ordered dictionaries *)

Module PyDict.

Definition t (K V : Type) : Type := list (K * V).

Definition empty {K V : Type} : t K V := [].

Section Ops.
Context {K V : Type} `{Hashable K}.

(** [d.get(k)] *)
Fixpoint get (k : K) (d : t K V) : option V :=
  match d with
  | [] => None
  | (k', v) :: d' => if key_eq_dec k k' then Some v else get k d'
  end.

(** [k in d] *)
Definition contains (k : K) (d : t K V) : bool :=
  match get k d with
  | Some _ => true
  | None => false
  end.

(** [d[k] = v]: a present key keeps its place, a new key goes last. *)
Fixpoint setitem (k : K) (v : V) (d : t K V) : t K V :=
  match d with
  | [] => [(k, v)]
  | (k', v') :: d' =>
      if key_eq_dec k k' then (k, v) :: d' else (k', v') :: setitem k v d'
  end.

(** [del d[k]] *)
Fixpoint delitem (k : K) (d : t K V) : t K V :=
  match d with
  | [] => []
  | (k', v') :: d' =>
      if key_eq_dec k k' then delitem k d' else (k', v') :: delitem k d'
  end.

(** [d.keys()] and [d.values()], in insertion order. *)
Definition keys (d : t K V) : list K := map fst d.
Definition values (d : t K V) : list V := map snd d.

End Ops.

End PyDict.

(** ** app/models.py *)

Module Task.

Record t : Type := mk {
  id : Z;
  title : string;
  description : option string;
  status : string;
  created_at : datetime;
  updated_at : datetime
}.

(** Attribute assignments [task.title = x], ... *)
Definition set_title (x : string) (task : t) : t :=
  mk (id task) x (description task) (status task) (created_at task) (updated_at task).
Definition set_description (x : string) (task : t) : t :=
  mk (id task) (title task) (Some x) (status task) (created_at task) (updated_at task).
Definition set_status (x : string) (task : t) : t :=
  mk (id task) (title task) (description task) x (created_at task) (updated_at task).
Definition set_updated_at (x : datetime) (task : t) : t :=
  mk (id task) (title task) (description task) (status task) (created_at task) x.

End Task.

Module ProcessJob.

Record t : Type := mk {
  id : string;
  status : string;
  data : list string;
  result : option string;
  created_at : datetime;
  completed_at : option datetime
}.

Definition set_status (x : string) (job : t) : t :=
  mk (id job) x (data job) (result job) (created_at job) (completed_at job).
Definition set_result (x : string) (job : t) : t :=
  mk (id job) (status job) (data job) (Some x) (created_at job) (completed_at job).
Definition set_completed_at (x : datetime) (job : t) : t :=
  mk (id job) (status job) (data job) (result job) (created_at job) (Some x).

End ProcessJob.

(** The request body of [PUT /tasks/{task_id}]. *)
Module TaskUpdate.

Record t : Type := mk {
  title : option string;
  description : option string;
  status : option string
}.

End TaskUpdate.

(** The values the [status] pattern of [TaskCreate] and [TaskUpdate] admits. *)
Definition task_statuses : list string :=
  ["pending"; "in_progress"; "completed"]%string.

(** ** app/storage.py *)

Module TaskStorage.

Record t : Type := mk {
  tasks : PyDict.t Z Task.t;
  next_id : Z
}.

(** [__init__] *)
Definition init : t := mk PyDict.empty 1.

Definition with_tasks (f : PyDict.t Z Task.t -> PyDict.t Z Task.t) (self : t) : t :=
  mk (f (tasks self)) (next_id self).
Definition with_next_id (f : Z -> Z) (self : t) : t :=
  mk (tasks self) (f (next_id self)).

Definition create (title : string) (description : option string) (status : string)
    (now : datetime) : State t Task.t :=
  next <- gets next_id ;;
  let task := Task.mk next title description status now now in
  modify (with_tasks (PyDict.setitem next task)) ;;
  modify (with_next_id (fun n => n + 1)) ;;
  ret task.

Definition get (task_id : Z) : State t (option Task.t) :=
  gets (fun self => PyDict.get task_id (tasks self)).

Definition get_all (status : option string) : State t (list Task.t) :=
  if truthy status then
    gets (fun self =>
      filter (fun task => str_eq_opt (Task.status task) status)
             (PyDict.values (tasks self)))
  else gets (fun self => PyDict.values (tasks self)).

(** The task found is mutated in place: the entry under [task_id] holds the
    new field values and keeps its position. *)
Definition update (task_id : Z) (title description status : option string)
    (now : datetime) : State t (option Task.t) :=
  found <- gets (fun self => PyDict.get task_id (tasks self)) ;;
  match found with
  | None => ret None
  | Some task =>
      let task := match title with
                  | Some x => Task.set_title x task
                  | None => task
                  end in
      let task := match description with
                  | Some x => Task.set_description x task
                  | None => task
                  end in
      let task := match status with
                  | Some x => Task.set_status x task
                  | None => task
                  end in
      let task := Task.set_updated_at now task in
      modify (with_tasks (PyDict.setitem task_id task)) ;;
      ret (Some task)
  end.

Definition delete (task_id : Z) : State t bool :=
  present <- gets (fun self => PyDict.contains task_id (tasks self)) ;;
  if present then
    modify (with_tasks (PyDict.delitem task_id)) ;;
    ret true
  else ret false.

End TaskStorage.

Module JobStorage.

Record t : Type := mk {
  jobs : PyDict.t string ProcessJob.t
}.

(** [__init__] *)
Definition init : t := mk PyDict.empty.

Definition with_jobs (f : PyDict.t string ProcessJob.t -> PyDict.t string ProcessJob.t)
    (self : t) : t :=
  mk (f (jobs self)).

Definition create (job_id : string) (data : list string) (now : datetime)
    : State t ProcessJob.t :=
  let job := ProcessJob.mk job_id "queued" data None now None in
  modify (with_jobs (PyDict.setitem job_id job)) ;;
  ret job.

Definition get (job_id : string) : State t (option ProcessJob.t) :=
  gets (fun self => PyDict.get job_id (jobs self)).

(** The clock is read only on the branch [status == "completed"]; [now] is
    the reading it gets there.  The job found is mutated in place. *)
Definition update_status (job_id : string) (status : string) (result : option string)
    (now : datetime) : State t (option ProcessJob.t) :=
  found <- gets (fun self => PyDict.get job_id (jobs self)) ;;
  match found with
  | None => ret None
  | Some job =>
      let job := ProcessJob.set_status status job in
      let job := match result with
                 | Some x => ProcessJob.set_result x job
                 | None => job
                 end in
      let job := if String.eqb status "completed"
                 then ProcessJob.set_completed_at now job
                 else job in
      modify (with_jobs (PyDict.setitem job_id job)) ;;
      ret (Some job)
  end.

End JobStorage.

(** ** app/main.py *)

(** The process-wide state: the two singletons of [app/storage.py] and the
    lines printed so far. *)
Record World : Type := mkWorld {
  task_storage : TaskStorage.t;
  job_storage : JobStorage.t;
  stdout : list string
}.

Definition initial_world : World := mkWorld TaskStorage.init JobStorage.init [].

(** A method call on [task_storage], respectively [job_storage]. *)
Definition on_task_storage {A : Type} (m : State TaskStorage.t A) : State World A :=
  fun w => let (a, ts) := m (task_storage w) in
           (a, mkWorld ts (job_storage w) (stdout w)).

Definition on_job_storage {A : Type} (m : State JobStorage.t A) : State World A :=
  fun w => let (a, js) := m (job_storage w) in
           (a, mkWorld (task_storage w) js (stdout w)).

(** [print(line)] *)
Definition print (line : string) : State World unit :=
  modify (fun w => mkWorld (task_storage w) (job_storage w) (stdout w ++ [line])).

(** [time.sleep(delay)] when it returns: the caller is suspended for the
    delay and none of its state changes.  The call raises instead on a negative
    delay and on one too large for the platform; the facts about code that
    sleeps for an argument carry the premise [sleep_returns]. *)
Definition time_sleep (delay : float) : State World unit := ret tt.

(** The delays [time.sleep] is known to return on here: not negative, and at
    most the 10 seconds the [delay] field of [ProcessJobCreate] admits
    ([le=10.0]), far below the platform's limit. *)
Definition sleep_returns (delay : float) : Prop := (0 <= delay)%Q /\ (delay <= 10 # 1)%Q.

Record HTTPException : Type := mkHTTPException {
  status_code : Z;
  detail : string
}.

Definition HTTP_400_BAD_REQUEST : Z := 400.
Definition HTTP_404_NOT_FOUND : Z := 404.

(** What a handler hands back: the exception it raised or its return value. *)
Definition Response (A : Type) : Type := (HTTPException + A)%type.

Definition task_not_found (task_id : Z) : HTTPException :=
  mkHTTPException HTTP_404_NOT_FOUND
    ("Task with id " ++ str_of_int task_id ++ " not found")%string.

Definition list_tasks (status_filter : option string) : State World (Response (list Task.t)) :=
  if truthy status_filter
     && negb (match status_filter with
              | Some s => str_in s task_statuses
              | None => false
              end)
  then ret (inl (mkHTTPException HTTP_400_BAD_REQUEST
                   "Invalid status filter. Must be: pending, in_progress, or completed"))
  else
    found <- on_task_storage (TaskStorage.get_all status_filter) ;;
    ret (inr found).

Definition get_task (task_id : Z) : State World (Response Task.t) :=
  task <- on_task_storage (TaskStorage.get task_id) ;;
  match task with
  | None => ret (inl (task_not_found task_id))
  | Some task => ret (inr task)
  end.

Definition update_task (task_id : Z) (task_data : TaskUpdate.t) (now : datetime)
    : State World (Response Task.t) :=
  task <- on_task_storage
            (TaskStorage.update task_id (TaskUpdate.title task_data)
               (TaskUpdate.description task_data) (TaskUpdate.status task_data) now) ;;
  match task with
  | None => ret (inl (task_not_found task_id))
  | Some task => ret (inr task)
  end.

Definition delete_task (task_id : Z) : State World (Response unit) :=
  deleted <- on_task_storage (TaskStorage.delete task_id) ;;
  if deleted then ret (inr tt) else ret (inl (task_not_found task_id)).

(** [f"Processed {len(data)} items: {', '.join(data)}"] *)
Definition job_summary (data : list string) : string :=
  ("Processed " ++ str_of_len data ++ " items: " ++ String.concat ", " data)%string.

(** The lifecycle runner up to its [time.sleep]: line 114.  The status is
    not [completed], so this call does not read the clock (see
    [update_status_ignores_clock]). *)
Definition process_job_background_start (job_id : string) (now : datetime)
    : State World unit :=
  on_job_storage (JobStorage.update_status job_id "processing" None now) ;;
  ret tt.

(** The lifecycle runner after its [time.sleep]: lines 116 to 118. *)
Definition process_job_background_finish (job_id : string) (data : list string)
    (now : datetime) : State World unit :=
  let result := job_summary data in
  on_job_storage (JobStorage.update_status job_id "completed" (Some result) now) ;;
  print ("JOB COMPLETED: " ++ job_id ++ " - " ++ result)%string.

(** A function body as the sequence of its statements: running it runs them
    in order, and its trace is the state after each statement, which is what
    the requests served meanwhile can see. *)
Fixpoint run_steps (steps : list (State World unit)) : State World unit :=
  match steps with
  | [] => ret tt
  | step :: rest => step ;; run_steps rest
  end.


(** The statements of the lifecycle runner: line 114, line 115, lines 116 to
    118. *)
Definition process_job_background_steps (job_id : string) (data : list string)
    (delay : float) (now : datetime) : list (State World unit) :=
  [ process_job_background_start job_id now;
    time_sleep delay;
    process_job_background_finish job_id data now ].

Definition process_job_background (job_id : string) (data : list string) (delay : float)
    (now : datetime) : State World unit :=
  run_steps (process_job_background_steps job_id data delay now).

Definition get_job_status (job_id : string) : State World (Response ProcessJob.t) :=
  job <- on_job_storage (JobStorage.get job_id) ;;
  match job with
  | None => ret (inl (mkHTTPException HTTP_404_NOT_FOUND
                        ("Job with id " ++ job_id ++ " not found")%string))
  | Some job => ret (inr job)
  end.

Definition error_messages : PyDict.t Z string :=
  [ (400, "Bad Request - Invalid input");
    (401, "Unauthorized - Authentication required");
    (403, "Forbidden - Access denied");
    (404, "Not Found - Resource does not exist");
    (500, "Internal Server Error - Something went wrong");
    (503, "Service Unavailable - Service is temporarily unavailable") ]%string.

(** What [trigger_error] raises: it never returns.  [error_messages[code]]
    raises [KeyError] on a missing key. *)
Inductive Raised : Type :=
| RaisedHTTPException (e : HTTPException)
| RaisedKeyError (key : Z).

Definition trigger_error (code : Z) : Raised :=
  let code := if negb (PyDict.contains code error_messages) then 500 else code in
  match PyDict.get code error_messages with
  | Some message => RaisedHTTPException (mkHTTPException code message)
  | None => RaisedKeyError code
  end.

(** ** Clients of the task store

    A client is any sequence of calls of the three mutating methods.  Running
    it collects the tasks the [create] calls returned, in call order. *)

Inductive TaskCall : Type :=
| CallCreate (title : string) (description : option string) (status : string)
    (now : datetime)
| CallUpdate (task_id : Z) (title description status : option string) (now : datetime)
| CallDelete (task_id : Z).

Definition call (c : TaskCall) : State TaskStorage.t (list Task.t) :=
  match c with
  | CallCreate title description status now =>
      task <- TaskStorage.create title description status now ;;
      ret [task]
  | CallUpdate task_id title description status now =>
      TaskStorage.update task_id title description status now ;;
      ret []
  | CallDelete task_id =>
      TaskStorage.delete task_id ;;
      ret []
  end.

Fixpoint calls (cs : list TaskCall) : State TaskStorage.t (list Task.t) :=
  match cs with
  | [] => ret []
  | c :: cs' =>
      created <- call c ;;
      created' <- calls cs' ;;
      ret (created ++ created')
  end.

(** ** Vocabulary of the contracts *)

(** [first; first + 1; ...], [n] of them. *)
Fixpoint consecutive (first : Z) (n : nat) : list Z :=
  match n with
  | O => []
  | S n' => first :: consecutive (first + 1) n'
  end.

(** The entries of a task store are well formed below [bound]: keys strictly
    increase along the insertion order, stay under [bound], and each task
    carries its key as its id. *)
Definition entries_ok (bound : Z) (d : PyDict.t Z Task.t) : Prop :=
  StronglySorted Z.lt (PyDict.keys d)
  /\ Forall (fun kv => fst kv < bound /\ Task.id (snd kv) = fst kv) d.

Definition storage_ok (self : TaskStorage.t) : Prop :=
  entries_ok (TaskStorage.next_id self) (TaskStorage.tasks self).

(** [completed_at] is set exactly when the status is [completed]. *)
Definition job_inv (job : ProcessJob.t) : Prop :=
  ProcessJob.completed_at job <> None <-> ProcessJob.status job = "completed"%string.

Definition jobs_inv (self : JobStorage.t) : Prop :=
  Forall job_inv (PyDict.values (JobStorage.jobs self)).


(** The clock readings a client's calls are given, in call order. *)
Definition reading (c : TaskCall) : list datetime :=
  match c with
  | CallCreate _ _ _ now => [now]
  | CallUpdate _ _ _ _ now => [now]
  | CallDelete _ => []
  end.

Definition readings (cs : list TaskCall) : list datetime := flat_map reading cs.

(** No stored task is stamped later than [clock]. *)
Definition stamped_by (clock : datetime) (self : TaskStorage.t) : Prop :=
  Forall (fun task => Task.updated_at task <= clock)
    (PyDict.values (TaskStorage.tasks self)).

(** The codes [trigger_error] has a message for. *)
Definition recognized_codes : list Z := [400; 401; 403; 404; 500; 503].

(** ** Sample states *)

(** Two tasks created, the first then marked completed. *)
Definition sample_tasks : TaskStorage.t :=
  exec_state
    (calls [ CallCreate "T" None "pending" 10;
             CallCreate "U" (Some "notes") "in_progress" 20;
             CallUpdate 1 None None (Some "completed") 30 ]%string)
    TaskStorage.init.

(** One job that has run to completion. *)
Definition sample_jobs : JobStorage.t :=
  exec_state
    (JobStorage.create "job-1" ["a"; "b"] 10 ;;
     JobStorage.update_status "job-1" "processing" None 11 ;;
     JobStorage.update_status "job-1" "completed" (Some (job_summary ["a"; "b"])) 12)%string
    JobStorage.init.

(** One job just queued. *)
Definition queued_jobs : JobStorage.t :=
  exec_state (JobStorage.create "job-2" ["a"; "b"] 10)%string JobStorage.init.

Definition sample_world : World := mkWorld sample_tasks queued_jobs [].


(** ** app/main.py: creation, notification and job submission *)

(** The request body of [POST /tasks]. *)
Module TaskCreate.

Record t : Type := mk {
  title : string;
  description : option string;
  status : string
}.

End TaskCreate.

(** The request body of [POST /process]. *)
Module ProcessJobCreate.

Record t : Type := mk {
  data : list string;
  delay : float
}.

End ProcessJobCreate.

(** A JSON object of strings, as the handlers return it. *)
Definition JsonObject : Type := PyDict.t string string.

Definition create_task (task_data : TaskCreate.t) (now : datetime) : State World Task.t :=
  on_task_storage
    (TaskStorage.create (TaskCreate.title task_data) (TaskCreate.description task_data)
       (TaskCreate.status task_data) now).

(** A call deferred with [background_tasks.add_task]: the function and the
    arguments it was given. *)
Inductive BackgroundTask : Type :=
| SendNotification (task_id : Z) (task_title : string)
| ProcessJobBackground (job_id : string) (data : list string) (delay : float).

(** The [BackgroundTasks] of a request: the deferred calls, in the order they
    were added. *)
Definition BackgroundTasks : Type := list BackgroundTask.

Definition add_task (task : BackgroundTask) (background_tasks : BackgroundTasks)
    : BackgroundTasks :=
  background_tasks ++ [task].

Definition send_notification (task_id : Z) (task_title : string) : State World unit :=
  time_sleep (2 # 1) ;;
  print ("NOTIFICATION SENT: Task '" ++ task_title ++ "' (ID: " ++ str_of_int task_id
         ++ ") has been created")%string.

Definition notify_task_creation (task_id : Z) (background_tasks : BackgroundTasks)
    : State World (Response JsonObject * BackgroundTasks) :=
  task <- on_task_storage (TaskStorage.get task_id) ;;
  match task with
  | None => ret (inl (task_not_found task_id), background_tasks)
  | Some task =>
      let background_tasks :=
        add_task (SendNotification task_id (Task.title task)) background_tasks in
      ret (inr [("message",
                 "Notification queued for task " ++ str_of_int task_id)]%string,
           background_tasks)
  end.

(** [uuid4_hex] is the value of [uuid.uuid4().hex]; [hex[:8]] is its prefix of
    at most eight characters. *)
Definition start_background_job (job_data : ProcessJobCreate.t)
    (background_tasks : BackgroundTasks) (uuid4_hex : string) (now : datetime)
    : State World (JsonObject * BackgroundTasks) :=
  let job_id := ("job-" ++ substring 0 8 uuid4_hex)%string in
  on_job_storage (JobStorage.create job_id (ProcessJobCreate.data job_data) now) ;;
  let background_tasks :=
    add_task (ProcessJobBackground job_id (ProcessJobCreate.data job_data)
                (ProcessJobCreate.delay job_data))
      background_tasks in
  ret ([ ("message", "Job queued for processing");
         ("job_id", job_id);
         ("status_url", "/jobs/" ++ job_id) ]%string,
       background_tasks).

(** A deferred call is made, after the response, with the arguments it was
    added with; [now] is the clock reading of the call. *)
Definition run_background_task (task : BackgroundTask) (now : datetime) : State World unit :=
  match task with
  | SendNotification task_id task_title => send_notification task_id task_title
  | ProcessJobBackground job_id data delay =>
      process_job_background job_id data delay now
  end.

(** [b if b is not None else a], field by field: what two partial updates
    amount to. *)
Definition later_or {A : Type} (later earlier : option A) : option A :=
  match later with
  | Some x => Some x
  | None => earlier
  end.

(** A store whose second task was deleted, and a client whose clock runs
    forward. *)
Definition sample_calls : list TaskCall :=
  [ CallCreate "T" None "pending" 10;
    CallCreate "U" (Some "notes") "in_progress" 20;
    CallUpdate 1 None None (Some "completed") 30;
    CallDelete 2 ]%string.

(** * Facts *)

(** ** The state monad *)

Lemma exec_bind {S A B : Type} (m : State S A) (k : A -> State S B) (s : S) :
  exec_state (bind m k) s = exec_state (k (eval_state m s)) (exec_state m s).
Proof. unfold exec_state, eval_state, bind. destruct (m s); reflexivity. Qed.

Lemma eval_bind {S A B : Type} (m : State S A) (k : A -> State S B) (s : S) :
  eval_state (bind m k) s = eval_state (k (eval_state m s)) (exec_state m s).
Proof. unfold exec_state, eval_state, bind. destruct (m s); reflexivity. Qed.

Lemma run_eq {S A : Type} (m : State S A) (s : S) :
  m s = (eval_state m s, exec_state m s).
Proof. unfold exec_state, eval_state. destruct (m s); reflexivity. Qed.

(** ** Dictionaries *)

Section PyDictFacts.
Context {K V : Type} `{Hashable K}.
Implicit Types (k : K) (v : V) (d : PyDict.t K V).

Lemma get_setitem_same k v d : PyDict.get k (PyDict.setitem k v d) = Some v.
Proof.
  induction d as [|[k' v'] d IH]; simpl.
  - destruct (key_eq_dec k k); congruence.
  - destruct (key_eq_dec k k') as [E|N]; simpl.
    + destruct (key_eq_dec k k); congruence.
    + destruct (key_eq_dec k k'); congruence.
Qed.

Lemma get_setitem_other k k0 v d :
  k0 <> k -> PyDict.get k0 (PyDict.setitem k v d) = PyDict.get k0 d.
Proof.
  intros N. induction d as [|[k' v'] d IH]; simpl.
  - destruct (key_eq_dec k0 k); congruence.
  - destruct (key_eq_dec k k') as [E|N']; simpl.
    + subst k'. destruct (key_eq_dec k0 k); congruence.
    + destruct (key_eq_dec k0 k'); congruence.
Qed.

Lemma get_delitem_same k d : PyDict.get k (PyDict.delitem k d) = None.
Proof.
  induction d as [|[k' v'] d IH]; simpl; trivial.
  destruct (key_eq_dec k k') as [E|N]; simpl; trivial.
  destruct (key_eq_dec k k'); congruence.
Qed.

Lemma get_delitem_other k k0 d :
  k0 <> k -> PyDict.get k0 (PyDict.delitem k d) = PyDict.get k0 d.
Proof.
  intros N. induction d as [|[k' v'] d IH]; simpl; trivial.
  destruct (key_eq_dec k k') as [E|N']; simpl.
  - subst k'. destruct (key_eq_dec k0 k); congruence.
  - destruct (key_eq_dec k0 k'); congruence.
Qed.

Lemma get_None_keys k d : PyDict.get k d = None <-> ~ In k (PyDict.keys d).
Proof.
  induction d as [|[k' v'] d IH]; simpl.
  - tauto.
  - destruct (key_eq_dec k k') as [E|N].
    + split; [discriminate | intros C; exfalso; apply C; left; congruence].
    + rewrite IH. split; [intros A [B|B]; [congruence | tauto] | tauto].
Qed.

Lemma keys_delitem k d : ~ In k (PyDict.keys (PyDict.delitem k d)).
Proof. apply get_None_keys, get_delitem_same. Qed.

Lemma delitem_absent k d : PyDict.get k d = None -> PyDict.delitem k d = d.
Proof.
  induction d as [|[k' v'] d IH]; simpl; trivial.
  destruct (key_eq_dec k k'); [discriminate | intros A; f_equal; auto].
Qed.

Lemma setitem_absent k v d :
  PyDict.get k d = None -> PyDict.setitem k v d = d ++ [(k, v)].
Proof.
  induction d as [|[k' v'] d IH]; simpl; trivial.
  destruct (key_eq_dec k k'); [discriminate | intros A; f_equal; auto].
Qed.

Lemma keys_setitem_present k v v0 d :
  PyDict.get k d = Some v0 -> PyDict.keys (PyDict.setitem k v d) = PyDict.keys d.
Proof.
  induction d as [|[k' v'] d IH]; simpl; [discriminate|].
  destruct (key_eq_dec k k') as [E|N]; simpl; intros A.
  - congruence.
  - f_equal. auto.
Qed.

Lemma in_values_setitem k v d : In v (PyDict.values (PyDict.setitem k v d)).
Proof.
  induction d as [|[k' v'] d IH]; simpl; auto.
  destruct (key_eq_dec k k'); simpl; auto.
Qed.

Lemma Forall_setitem (P : K * V -> Prop) k v d :
  Forall P d -> P (k, v) -> Forall P (PyDict.setitem k v d).
Proof.
  intros A B. induction A as [|[k' v'] d A1 A2 IH]; simpl.
  - auto.
  - destruct (key_eq_dec k k'); auto.
Qed.

Lemma Forall_delitem (P : K * V -> Prop) k d :
  Forall P d -> Forall P (PyDict.delitem k d).
Proof.
  intros A. induction A as [|[k' v'] d A1 A2 IH]; simpl; auto.
  destruct (key_eq_dec k k'); auto.
Qed.

Lemma Forall_values_setitem (P : V -> Prop) k v d :
  Forall P (PyDict.values d) -> P v -> Forall P (PyDict.values (PyDict.setitem k v d)).
Proof.
  unfold PyDict.values. rewrite !Forall_map. intros A B. apply Forall_setitem; auto.
Qed.

Lemma get_in_values k v d : PyDict.get k d = Some v -> In v (PyDict.values d).
Proof.
  induction d as [|[k' v'] d IH]; simpl; [discriminate|].
  destruct (key_eq_dec k k'); intros A; [left; congruence | right; auto].
Qed.

Lemma keys_delitem_incl k k0 d :
  In k0 (PyDict.keys (PyDict.delitem k d)) -> In k0 (PyDict.keys d).
Proof.
  induction d as [|[k' v'] d IH]; simpl; trivial.
  destruct (key_eq_dec k k'); simpl; tauto.
Qed.

End PyDictFacts.

(** ** Reading the stores *)

Lemma world_eta (w : World) : mkWorld (task_storage w) (job_storage w) (stdout w) = w.
Proof. destruct w; reflexivity. Qed.

Lemma on_task_storage_read {A : Type} (f : TaskStorage.t -> A) (w : World) :
  on_task_storage (gets f) w = (f (task_storage w), w).
Proof. unfold on_task_storage, gets. now rewrite world_eta. Qed.

Lemma on_job_storage_read {A : Type} (f : JobStorage.t -> A) (w : World) :
  on_job_storage (gets f) w = (f (job_storage w), w).
Proof. unfold on_job_storage, gets. now rewrite world_eta. Qed.

Lemma get_all_reads (status : option string) :
  exists f, TaskStorage.get_all status = gets f.
Proof. unfold TaskStorage.get_all. destruct (truthy status); eauto. Qed.

(** C10: the read operations [get_task], [list_tasks] (with any filter or
    none) and [get_job_status], and the store methods [TaskStorage.get],
    [TaskStorage.get_all] and [JobStorage.get] under them, hand back the state
    they were given: the task store, the job store and the output are the same
    after the call, whatever the arguments, absent ids included. *)
Theorem reads_leave_stores_unchanged :
  forall (w : World) (task_id : Z) (status_filter : option string) (job_id : string),
    exec_state (get_task task_id) w = w
    /\ exec_state (list_tasks status_filter) w = w
    /\ exec_state (get_job_status job_id) w = w
    /\ exec_state (TaskStorage.get task_id) (task_storage w) = task_storage w
    /\ exec_state (TaskStorage.get_all status_filter) (task_storage w) = task_storage w
    /\ exec_state (JobStorage.get job_id) (job_storage w) = job_storage w.
Proof.
  intros w task_id status_filter job_id.
  destruct (get_all_reads status_filter) as [f Hf].
  split; [|split; [|split; [|split; [|split]]]].
  - unfold get_task, TaskStorage.get. rewrite exec_bind.
    unfold exec_state at 2, eval_state. rewrite on_task_storage_read. simpl.
    destruct (PyDict.get task_id _); reflexivity.
  - unfold list_tasks.
    destruct (truthy status_filter && _); [reflexivity|].
    rewrite exec_bind, Hf. unfold exec_state at 2. rewrite on_task_storage_read.
    reflexivity.
  - unfold get_job_status, JobStorage.get. rewrite exec_bind.
    unfold exec_state at 2, eval_state. rewrite on_job_storage_read. simpl.
    destruct (PyDict.get job_id _); reflexivity.
  - reflexivity.
  - rewrite Hf. reflexivity.
  - reflexivity.
Qed.

(** ** The error simulation *)

Lemma unrecognized_not_contained (code : Z) :
  ~ In code recognized_codes -> PyDict.contains code error_messages = false.
Proof.
  intros N. unfold PyDict.contains, error_messages. simpl.
  repeat (destruct (key_eq_dec code _) as [->|?]; [exfalso; apply N; simpl; tauto|]).
  reflexivity.
Qed.

(** C8: for every integer code outside {400, 401, 403, 404, 500, 503}
    [trigger_error] raises exactly what it raises for code 500, the
    HTTPException with status code 500 and the message of 500; for every code
    of the set it raises the HTTPException with that code and the message the
    table holds for it.  The table is spelled out entry by entry. *)
Theorem trigger_error_defaults_to_500 :
  (forall code : Z, ~ In code recognized_codes ->
     trigger_error code = trigger_error 500)
  /\ (forall code : Z, In code recognized_codes ->
        exists message,
          PyDict.get code error_messages = Some message
          /\ trigger_error code = RaisedHTTPException (mkHTTPException code message))
  /\ PyDict.keys error_messages = recognized_codes
  /\ map trigger_error recognized_codes =
       map RaisedHTTPException
         [ mkHTTPException 400 "Bad Request - Invalid input";
           mkHTTPException 401 "Unauthorized - Authentication required";
           mkHTTPException 403 "Forbidden - Access denied";
           mkHTTPException 404 "Not Found - Resource does not exist";
           mkHTTPException 500 "Internal Server Error - Something went wrong";
           mkHTTPException 503
             "Service Unavailable - Service is temporarily unavailable" ].
Proof.
  split; [|split; [|split]].
  - intros code N. unfold trigger_error.
    rewrite (unrecognized_not_contained code N). reflexivity.
  - intros code Hin. simpl in Hin.
    repeat (destruct Hin as [<-|Hin]; [eexists; split; reflexivity|]).
    contradiction.
  - reflexivity.
  - reflexivity.
Qed.

Lemma trigger_error_defaults_to_500_witness :
  trigger_error 418 = trigger_error 500
  /\ exists message,
       PyDict.get 404 error_messages = Some message
       /\ trigger_error 404 = RaisedHTTPException (mkHTTPException 404 message).
Proof.
  split.
  - apply (proj1 trigger_error_defaults_to_500 418).
    simpl. intros C. repeat (destruct C as [C|C]; [discriminate C|]). exact C.
  - apply (proj1 (proj2 trigger_error_defaults_to_500) 404).
    simpl. tauto.
Defined.

(** ** Deleting a task *)

Lemma delete_run (task_id : Z) (self : TaskStorage.t) :
  TaskStorage.delete task_id self =
  match PyDict.get task_id (TaskStorage.tasks self) with
  | Some _ => (true, TaskStorage.with_tasks (PyDict.delitem task_id) self)
  | None => (false, self)
  end.
Proof.
  unfold TaskStorage.delete, PyDict.contains, bind, gets, modify, ret.
  destruct (PyDict.get task_id (TaskStorage.tasks self)); reflexivity.
Qed.

Lemma get_task_after_delete_task (w : World) (task_id : Z) :
  eval_state (get_task task_id) (exec_state (delete_task task_id) w)
  = inl (task_not_found task_id).
Proof.
  unfold eval_state, exec_state, get_task, delete_task, bind, on_task_storage,
    TaskStorage.get, gets.
  rewrite delete_run.
  destruct (PyDict.get task_id (TaskStorage.tasks (task_storage w))) eqn:E; simpl.
  - rewrite get_delitem_same. reflexivity.
  - rewrite E. reflexivity.
Qed.

(** C7: [TaskStorage.delete] returns [True] exactly when a task is stored
    under the id and [False] exactly when none is (it is a total function: it
    raises nothing); a [False] call leaves the store as it was; after the call
    the id is no longer a key and [get] on it yields [None], every other id
    reads as before and [next_id] is untouched.  At the handlers: [get_task]
    after [delete_task] on the same id answers 404 not found. *)
Theorem delete_returns_whether_present :
  forall (self : TaskStorage.t) (task_id : Z),
    let deleted := eval_state (TaskStorage.delete task_id) self in
    let self' := exec_state (TaskStorage.delete task_id) self in
    (deleted = true <->
       exists task, eval_state (TaskStorage.get task_id) self = Some task)
    /\ (deleted = false <-> eval_state (TaskStorage.get task_id) self = None)
    /\ (deleted = false -> self' = self)
    /\ eval_state (TaskStorage.get task_id) self' = None
    /\ ~ In task_id (PyDict.keys (TaskStorage.tasks self'))
    /\ (forall other : Z, other <> task_id ->
          eval_state (TaskStorage.get other) self'
          = eval_state (TaskStorage.get other) self)
    /\ TaskStorage.next_id self' = TaskStorage.next_id self
    /\ (forall w : World,
          eval_state (get_task task_id) (exec_state (delete_task task_id) w)
          = inl (task_not_found task_id)).
Proof.
  intros self task_id deleted self'.
  assert (Hgone : eval_state (TaskStorage.get task_id) self' = None).
  { subst self'. unfold exec_state, eval_state, TaskStorage.get, gets.
    rewrite delete_run. simpl.
    destruct (PyDict.get task_id (TaskStorage.tasks self)) eqn:E; simpl.
    - apply get_delitem_same.
    - exact E. }
  subst deleted self'. unfold exec_state, eval_state, TaskStorage.get, gets in *.
  rewrite delete_run in *. simpl in *.
  destruct (PyDict.get task_id (TaskStorage.tasks self)) as [task|] eqn:E; simpl in *.
  - split; [split; eauto|].
    split; [split; discriminate|].
    split; [discriminate|].
    split; [exact Hgone|].
    split; [apply keys_delitem|].
    split; [intros other N; now apply get_delitem_other|].
    split; [reflexivity|].
    intros w. apply get_task_after_delete_task.
  - split; [split; [discriminate | intros [task C]; discriminate C]|].
    split; [split; reflexivity|].
    split; [reflexivity|].
    split; [exact E|].
    split; [now apply get_None_keys|].
    split; [reflexivity|].
    split; [reflexivity|].
    intros w. apply get_task_after_delete_task.
Qed.

Lemma delete_returns_whether_present_witness :
  eval_state (TaskStorage.delete 2) sample_tasks = true
  /\ eval_state (TaskStorage.delete 7) sample_tasks = false
  /\ eval_state (get_task 2) (exec_state (delete_task 2) sample_world)
     = inl (task_not_found 2).
Proof.
  pose proof (delete_returns_whether_present sample_tasks 2) as P2.
  pose proof (delete_returns_whether_present sample_tasks 7) as P7.
  cbv zeta in P2, P7.
  destruct P2 as (T & _ & _ & _ & _ & _ & _ & G).
  destruct P7 as (_ & F & _).
  split; [|split].
  - apply T. eexists. vm_compute. reflexivity.
  - apply F. vm_compute. reflexivity.
  - apply G.
Defined.

(** ** Updating a task *)

(** The task [TaskStorage.update] leaves under the id of [task]. *)
Lemma update_run (task_id : Z) (title description status : option string)
    (now : datetime) (self : TaskStorage.t) :
  TaskStorage.update task_id title description status now self =
  match PyDict.get task_id (TaskStorage.tasks self) with
  | None => (None, self)
  | Some task =>
      let task' :=
        Task.mk (Task.id task)
          (match title with Some x => x | None => Task.title task end)
          (match description with Some x => Some x | None => Task.description task end)
          (match status with Some x => x | None => Task.status task end)
          (Task.created_at task) now in
      (Some task', TaskStorage.with_tasks (PyDict.setitem task_id task') self)
  end.
Proof.
  unfold TaskStorage.update, bind, gets, modify, ret.
  destruct (PyDict.get task_id (TaskStorage.tasks self)) as [task|]; [|reflexivity].
  destruct title, description, status; reflexivity.
Qed.


Lemma update_task_on_storage (w : World) (task_id : Z) (task_data : TaskUpdate.t)
    (now : datetime) :
  task_storage (exec_state (update_task task_id task_data now) w)
  = exec_state
      (TaskStorage.update task_id (TaskUpdate.title task_data)
         (TaskUpdate.description task_data) (TaskUpdate.status task_data) now)
      (task_storage w).
Proof.
  unfold update_task, exec_state, bind, on_task_storage.
  destruct (TaskStorage.update _ _ _ _ _ (task_storage w)) as [[task|] self']; reflexivity.
Qed.

(** C9: no call of [update_task] (hence of [TaskStorage.update]) turns a
    stored description that is not [None] into [None]: whatever the id
    addressed and whatever the body, a task stored with a description is still
    stored, and still has one, after the call.  A body whose description is
    [None] (omitted, or sent as null: the two are the same value) leaves the
    stored description as it was. *)
Theorem update_never_clears_description :
  forall (w : World) (task_id : Z) (task_data : TaskUpdate.t) (now : datetime)
         (stored_id : Z) (task : Task.t),
    eval_state (TaskStorage.get stored_id) (task_storage w) = Some task ->
    Task.description task <> None ->
    let w' := exec_state (update_task task_id task_data now) w in
    exists task',
      eval_state (TaskStorage.get stored_id) (task_storage w') = Some task'
      /\ Task.description task' <> None
      /\ (TaskUpdate.description task_data = None ->
          Task.description task' = Task.description task)
      /\ task_storage w'
         = exec_state
             (TaskStorage.update task_id (TaskUpdate.title task_data)
                (TaskUpdate.description task_data) (TaskUpdate.status task_data) now)
             (task_storage w).
Proof.
  intros w task_id task_data now stored_id task Hget Hdesc w'. subst w'.
  rewrite update_task_on_storage.
  unfold eval_state, exec_state, TaskStorage.get, gets in *. simpl in *.
  rewrite update_run.
  destruct (Z.eq_dec stored_id task_id) as [->|N].
  - rewrite Hget. simpl. rewrite get_setitem_same.
    eexists. split; [reflexivity|]. simpl.
    destruct (TaskUpdate.description task_data); repeat split; congruence.
  - destruct (PyDict.get task_id (TaskStorage.tasks (task_storage w))); simpl.
    + rewrite get_setitem_other by exact N. exists task. repeat split; auto.
    + exists task. repeat split; auto.
Qed.

Lemma update_never_clears_description_witness :
  exists task',
    eval_state (TaskStorage.get 2)
      (task_storage
         (exec_state (update_task 2 (TaskUpdate.mk None None None) 40) sample_world))
    = Some task'
    /\ Task.description task' <> None.
Proof.
  destruct (update_never_clears_description sample_world 2 (TaskUpdate.mk None None None)
              40 2 (Task.mk 2 "U" (Some "notes"%string) "in_progress" 20 20) eq_refl)
    as (task' & G & D & _).
  - simpl. discriminate.
  - exists task'. split; [exact G | exact D].
Defined.

(** ** Listing tasks *)

Lemma str_in_In (x : string) (l : list string) : str_in x l = true <-> In x l.
Proof.
  unfold str_in. rewrite existsb_exists. split.
  - intros (y & Hy & E). apply String.eqb_eq in E. now subst.
  - intros Hx. exists x. split; [exact Hx | apply String.eqb_refl].
Qed.

Lemma truthy_Some (s : string) : truthy (Some s) = true <-> s <> ""%string.
Proof.
  simpl. destruct (String.eqb_spec s ""); simpl; split; congruence.
Qed.

Lemma get_all_unfiltered (self : TaskStorage.t) :
  TaskStorage.get_all None self = (PyDict.values (TaskStorage.tasks self), self).
Proof. reflexivity. Qed.

Lemma get_all_filtered (s : string) (self : TaskStorage.t) :
  s <> ""%string ->
  TaskStorage.get_all (Some s) self
  = (filter (fun task => String.eqb (Task.status task) s)
       (PyDict.values (TaskStorage.tasks self)), self).
Proof.
  intros N. unfold TaskStorage.get_all.
  rewrite (proj2 (truthy_Some s) N). reflexivity.
Qed.

(** C6, the claim as stated fails at the empty string: it is outside the set
    {pending, in_progress, completed}, and [list_tasks] does not reject it but
    answers with every task of the store. *)
Lemma list_tasks_accepts_empty_filter :
  ~ In ""%string task_statuses
  /\ eval_state (list_tasks (Some ""%string)) sample_world
     = inr (PyDict.values (TaskStorage.tasks sample_tasks))
  /\ PyDict.values (TaskStorage.tasks sample_tasks)
     = [ Task.mk 1 "T" None "completed" 10 30;
         Task.mk 2 "U" (Some "notes"%string) "in_progress" 20 20 ].
Proof.
  split; [|split].
  - simpl. intros C. repeat (destruct C as [C|C]; [discriminate C|]). exact C.
  - reflexivity.
  - reflexivity.
Qed.

(** C6, amended: for a status filter outside {pending, in_progress,
    completed}, [list_tasks] raises the 400 HTTPException when the filter is
    not the empty string: the answer is the same whatever the state, which is
    handed back as it was (the store is neither read nor written).  The empty
    string is taken as no filter at all. *)
Theorem list_tasks_rejects_unknown_filter :
  forall (status_filter : string) (w : World),
    ~ In status_filter task_statuses ->
    (status_filter <> ""%string ->
       list_tasks (Some status_filter) w
       = (inl (mkHTTPException 400
                 "Invalid status filter. Must be: pending, in_progress, or completed"),
          w))
    /\ (status_filter = ""%string ->
          list_tasks (Some status_filter) w = list_tasks None w
          /\ list_tasks None w
             = (inr (PyDict.values (TaskStorage.tasks (task_storage w))), w)).
Proof.
  intros status_filter w Hout. split.
  - intros Hne. unfold list_tasks.
    rewrite (proj2 (truthy_Some status_filter) Hne).
    destruct (str_in status_filter task_statuses) eqn:E.
    + apply str_in_In in E. contradiction.
    + reflexivity.
  - intros ->. split; [reflexivity|].
    unfold list_tasks, TaskStorage.get_all. cbn [truthy andb]. unfold bind.
    rewrite on_task_storage_read. reflexivity.
Qed.

Lemma list_tasks_rejects_unknown_filter_witness :
  eval_state (list_tasks (Some "archived"%string)) sample_world
  = inl (mkHTTPException 400
           "Invalid status filter. Must be: pending, in_progress, or completed").
Proof.
  assert (Hout : ~ In "archived"%string task_statuses).
  { simpl. intros C. repeat (destruct C as [C|C]; [discriminate C|]). exact C. }
  destruct (list_tasks_rejects_unknown_filter "archived" sample_world Hout) as [R _].
  unfold eval_state. rewrite R; [reflexivity | discriminate].
Defined.

(** ** The job store *)

Lemma update_status_run (job_id status : string) (result : option string)
    (now : datetime) (self : JobStorage.t) :
  JobStorage.update_status job_id status result now self =
  match PyDict.get job_id (JobStorage.jobs self) with
  | None => (None, self)
  | Some job =>
      let job' :=
        ProcessJob.mk (ProcessJob.id job) status (ProcessJob.data job)
          (match result with Some x => Some x | None => ProcessJob.result job end)
          (ProcessJob.created_at job)
          (if String.eqb status "completed" then Some now
           else ProcessJob.completed_at job) in
      (Some job', JobStorage.with_jobs (PyDict.setitem job_id job') self)
  end.
Proof.
  unfold JobStorage.update_status, bind, gets, modify, ret.
  destruct (PyDict.get job_id (JobStorage.jobs self)) as [job|]; [|reflexivity].
  destruct result, (String.eqb status "completed"); reflexivity.
Qed.

Lemma update_status_ignores_clock (job_id status : string) (result : option string)
    (now now' : datetime) (self : JobStorage.t) :
  status <> "completed"%string ->
  JobStorage.update_status job_id status result now self
  = JobStorage.update_status job_id status result now' self.
Proof.
  intros N. rewrite !update_status_run.
  destruct (PyDict.get job_id (JobStorage.jobs self)); [|reflexivity].
  simpl. destruct (String.eqb_spec status "completed"); [contradiction | reflexivity].
Qed.

Lemma job_inv_queued (job_id : string) (data : list string) (now : datetime) :
  job_inv (ProcessJob.mk job_id "queued" data None now None).
Proof. unfold job_inv. simpl. split; [congruence | discriminate]. Qed.

Lemma create_job_inv (job_id : string) (data : list string) (now : datetime)
    (self : JobStorage.t) :
  jobs_inv self -> jobs_inv (exec_state (JobStorage.create job_id data now) self).
Proof.
  intros Hinv. unfold jobs_inv, exec_state, JobStorage.create, bind, modify, ret. simpl.
  apply Forall_values_setitem; [exact Hinv | apply job_inv_queued].
Qed.

Lemma update_status_job_inv (job_id status : string) (result : option string)
    (now : datetime) (self : JobStorage.t) :
  jobs_inv self ->
  (status = "completed"%string
   \/ forall job, PyDict.get job_id (JobStorage.jobs self) = Some job ->
                  ProcessJob.status job <> "completed"%string) ->
  jobs_inv (exec_state (JobStorage.update_status job_id status result now) self).
Proof.
  intros Hinv Hcase. unfold exec_state. rewrite update_status_run.
  destruct (PyDict.get job_id (JobStorage.jobs self)) as [job|] eqn:E; [|exact Hinv].
  simpl. unfold jobs_inv. simpl. apply Forall_values_setitem; [exact Hinv|].
  unfold job_inv. simpl.
  destruct (String.eqb_spec status "completed") as [->|N].
  - split; [reflexivity | discriminate].
  - destruct Hcase as [C|C]; [contradiction|].
    specialize (C job eq_refl).
    assert (Hjob : job_inv job).
    { unfold jobs_inv in Hinv. rewrite Forall_forall in Hinv.
      apply Hinv. eapply get_in_values. exact E. }
    unfold job_inv in Hjob. split; [intros A; apply Hjob in A; contradiction | contradiction].
Qed.

(** C2, the claim as stated fails: the store reached by creating a job and
    running it to completion satisfies the invariant, and [update_status] with
    the status [processing] on the completed job breaks it: the status is no
    longer [completed] while [completed_at] stays set. *)
Lemma update_status_keeps_completed_at :
  jobs_inv sample_jobs
  /\ eval_state (JobStorage.update_status "job-1" "processing" None 13) sample_jobs
     = Some (ProcessJob.mk "job-1" "processing" ["a"; "b"]%string
               (Some "Processed 2 items: a, b"%string) 10 (Some 12))
  /\ ~ jobs_inv
         (exec_state (JobStorage.update_status "job-1" "processing" None 13) sample_jobs).
Proof.
  split; [|split].
  - unfold jobs_inv.
    change (PyDict.values (JobStorage.jobs sample_jobs))
      with [ProcessJob.mk "job-1" "completed" ["a"; "b"]%string
              (Some "Processed 2 items: a, b"%string) 10 (Some 12)].
    constructor; [|constructor].
    unfold job_inv. simpl. split; [reflexivity | discriminate].
  - reflexivity.
  - unfold jobs_inv.
    change (PyDict.values (JobStorage.jobs
              (exec_state (JobStorage.update_status "job-1" "processing" None 13)
                 sample_jobs)))
      with [ProcessJob.mk "job-1" "processing" ["a"; "b"]%string
              (Some "Processed 2 items: a, b"%string) 10 (Some 12)].
    intros C. inversion C as [|job rest Hjob _]; subst.
    unfold job_inv in Hjob. simpl in Hjob.
    assert (E : "processing"%string = "completed"%string) by (apply Hjob; discriminate).
    discriminate E.
Qed.

(** C2, amended: the empty job store satisfies "[completed_at] is set exactly
    when the status is [completed]" for every job; [JobStorage.create] returns
    a job that satisfies it and keeps it for the store; [update_status] keeps
    it for the store whenever the status argument is [completed], or the job
    addressed is absent or not completed.  [update_status] never clears
    [completed_at]: on a stored job it sets the status to its argument and
    [completed_at] to the clock reading when that argument is [completed], and
    leaves [completed_at] as it was otherwise. *)
Theorem job_inv_create_and_update_status :
  jobs_inv JobStorage.init
  /\ (forall self : JobStorage.t,
        jobs_inv self ->
        (forall (job_id : string) (data : list string) (now : datetime),
           job_inv (eval_state (JobStorage.create job_id data now) self)
           /\ jobs_inv (exec_state (JobStorage.create job_id data now) self))
        /\ (forall (job_id status : string) (result : option string) (now : datetime),
              (status = "completed"%string
               \/ forall job,
                    eval_state (JobStorage.get job_id) self = Some job ->
                    ProcessJob.status job <> "completed"%string) ->
              jobs_inv
                (exec_state (JobStorage.update_status job_id status result now) self)))
  /\ (forall (self : JobStorage.t) (job_id status : string) (result : option string)
             (now : datetime) (job : ProcessJob.t),
        eval_state (JobStorage.get job_id) self = Some job ->
        exists job',
          eval_state (JobStorage.get job_id)
            (exec_state (JobStorage.update_status job_id status result now) self)
          = Some job'
          /\ ProcessJob.status job' = status
          /\ ProcessJob.completed_at job'
             = (if String.eqb status "completed" then Some now
                else ProcessJob.completed_at job)
          /\ (ProcessJob.completed_at job <> None -> ProcessJob.completed_at job' <> None)).
Proof.
  split; [constructor|]. split.
  - intros self Hinv. split.
    + intros job_id data now. split.
      * apply job_inv_queued.
      * now apply create_job_inv.
    + intros job_id status result now Hcase. now apply update_status_job_inv.
  - intros self job_id status result now job Hget.
    unfold eval_state, exec_state, JobStorage.get, gets in *. simpl in Hget.
    rewrite update_status_run, Hget. simpl. rewrite get_setitem_same.
    eexists. split; [reflexivity|]. simpl.
    split; [reflexivity|]. split; [reflexivity|].
    destruct (String.eqb status "completed"); [discriminate | trivial].
Qed.

Lemma job_inv_create_and_update_status_witness :
  jobs_inv (exec_state (JobStorage.create "job-3" ["c"]%string 14) sample_jobs)
  /\ jobs_inv
       (exec_state (JobStorage.update_status "job-2" "processing" None 11) queued_jobs)
  /\ exists job',
       eval_state (JobStorage.get "job-1")
         (exec_state (JobStorage.update_status "job-1" "processing" None 13) sample_jobs)
       = Some job'
       /\ ProcessJob.completed_at job' = Some 12.
Proof.
  assert (Hsample : jobs_inv sample_jobs).
  { constructor; [|constructor]. unfold job_inv. simpl. split; [reflexivity | discriminate]. }
  assert (Hqueued : jobs_inv queued_jobs).
  { constructor; [|constructor]. apply job_inv_queued. }
  split; [|split].
  - apply (proj1 (proj2 job_inv_create_and_update_status) sample_jobs Hsample).
  - apply (proj1 (proj2 job_inv_create_and_update_status) queued_jobs Hqueued).
    right. intros job E. vm_compute in E. injection E as <-. simpl. discriminate.
  - destruct (proj2 (proj2 job_inv_create_and_update_status) sample_jobs "job-1"
                "processing" None 13
                (ProcessJob.mk "job-1" "completed" ["a"; "b"]%string
                   (Some "Processed 2 items: a, b"%string) 10 (Some 12)) eq_refl)%string
      as (job' & G & _ & C & _).
    exists job'. split; [exact G | exact C].
Defined.

(** ** The job lifecycle runner *)

Lemma setitem_setitem {K V : Type} `{Hashable K} (k : K) (v1 v2 : V) (d : PyDict.t K V) :
  PyDict.setitem k v2 (PyDict.setitem k v1 d) = PyDict.setitem k v2 d.
Proof.
  induction d as [|[k' v'] d IH]; simpl.
  - destruct (key_eq_dec k k); congruence.
  - destruct (key_eq_dec k k') as [E|N]; simpl.
    + destruct (key_eq_dec k k); congruence.
    + destruct (key_eq_dec k k'); [contradiction | now rewrite IH].
Qed.






Lemma job_storage_on_job_storage {A : Type} (m : State JobStorage.t A) (w : World) :
  exec_state (on_job_storage m) w
  = mkWorld (task_storage w) (exec_state m (job_storage w)) (stdout w).
Proof.
  unfold exec_state, on_job_storage. destruct (m (job_storage w)); reflexivity.
Qed.

Lemma start_run (job_id : string) (now : datetime) (w : World) :
  exec_state (process_job_background_start job_id now) w
  = mkWorld (task_storage w)
      (exec_state (JobStorage.update_status job_id "processing" None now) (job_storage w))
      (stdout w).
Proof.
  unfold process_job_background_start. rewrite exec_bind.
  apply job_storage_on_job_storage.
Qed.

Lemma finish_run (job_id : string) (data : list string) (now : datetime) (w : World) :
  exec_state (process_job_background_finish job_id data now) w
  = mkWorld (task_storage w)
      (exec_state
         (JobStorage.update_status job_id "completed" (Some (job_summary data)) now)
         (job_storage w))
      (stdout w ++ ["JOB COMPLETED: " ++ job_id ++ " - " ++ job_summary data]%string).
Proof.
  unfold process_job_background_finish. cbv zeta. rewrite exec_bind.
  rewrite job_storage_on_job_storage. reflexivity.
Qed.







(** ** Ids and insertion order in the task store *)

Lemma create_run (title : string) (description : option string) (status : string)
    (now : datetime) (self : TaskStorage.t) :
  TaskStorage.create title description status now self
  = (Task.mk (TaskStorage.next_id self) title description status now now,
     TaskStorage.mk
       (PyDict.setitem (TaskStorage.next_id self)
          (Task.mk (TaskStorage.next_id self) title description status now now)
          (TaskStorage.tasks self))
       (TaskStorage.next_id self + 1)).
Proof. reflexivity. Qed.

Lemma get_in_entries {K V : Type} `{Hashable K} (k : K) (v : V) (d : PyDict.t K V) :
  PyDict.get k d = Some v -> In (k, v) d.
Proof.
  induction d as [|[k' v'] d IH]; simpl; [discriminate|].
  destruct (key_eq_dec k k'); intros A; [left; congruence | right; auto].
Qed.

Lemma sorted_snoc (l : list Z) (x : Z) :
  StronglySorted Z.lt l -> Forall (fun k => k < x) l -> StronglySorted Z.lt (l ++ [x]).
Proof.
  induction 1 as [|a l Hl IH Ha]; intros Hx; simpl.
  - repeat constructor.
  - inversion Hx; subst. constructor; [auto|].
    apply Forall_app. split; [exact Ha | repeat constructor; assumption].
Qed.

Lemma sorted_keys_delitem (k : Z) (d : PyDict.t Z Task.t) :
  StronglySorted Z.lt (PyDict.keys d) ->
  StronglySorted Z.lt (PyDict.keys (PyDict.delitem k d)).
Proof.
  induction d as [|[k' v'] d IH]; simpl; trivial.
  intros Hs. inversion Hs as [|? ? Hd Hk]; subst.
  destruct (key_eq_dec k k'); simpl; [auto|].
  constructor; [auto|].
  rewrite Forall_forall in *. intros x Hx. apply Hk.
  eapply keys_delitem_incl. exact Hx.
Qed.

Lemma sorted_map_filter {A : Type} (f : A -> Z) (p : A -> bool) (l : list A) :
  StronglySorted Z.lt (map f l) -> StronglySorted Z.lt (map f (filter p l)).
Proof.
  induction l as [|a l IH]; simpl; trivial.
  intros Hs. inversion Hs as [|? ? Hl Ha]; subst.
  destruct (p a); simpl; [|auto].
  constructor; [auto|].
  rewrite Forall_forall in *. intros x Hx. apply Ha.
  rewrite in_map_iff in *. destruct Hx as (y & Hy & Hin).
  exists y. split; [exact Hy|]. apply filter_In in Hin. tauto.
Qed.

Lemma storage_ok_init : storage_ok TaskStorage.init.
Proof. split; constructor. Qed.

Lemma create_ok (title : string) (description : option string) (status : string)
    (now : datetime) (self : TaskStorage.t) :
  storage_ok self ->
  storage_ok (exec_state (TaskStorage.create title description status now) self)
  /\ PyDict.setitem (TaskStorage.next_id self)
       (Task.mk (TaskStorage.next_id self) title description status now now)
       (TaskStorage.tasks self)
     = TaskStorage.tasks self
       ++ [(TaskStorage.next_id self,
            Task.mk (TaskStorage.next_id self) title description status now now)].
Proof.
  intros [Hs Hb].
  assert (Hbelow : Forall (fun k => k < TaskStorage.next_id self)
                     (PyDict.keys (TaskStorage.tasks self))).
  { unfold PyDict.keys. rewrite Forall_map. eapply Forall_impl; [|exact Hb].
    simpl. tauto. }
  assert (Habsent : PyDict.get (TaskStorage.next_id self) (TaskStorage.tasks self) = None).
  { apply get_None_keys. intros Hin. rewrite Forall_forall in Hbelow.
    apply Hbelow in Hin. lia. }
  pose proof (setitem_absent (TaskStorage.next_id self)
                (Task.mk (TaskStorage.next_id self) title description status now now)
                (TaskStorage.tasks self) Habsent) as Hset.
  split; [|exact Hset].
  unfold exec_state. rewrite create_run. unfold storage_ok, entries_ok. simpl.
  rewrite Hset. split.
  - unfold PyDict.keys. rewrite map_app. simpl. now apply sorted_snoc.
  - apply Forall_app. split.
    + eapply Forall_impl; [|exact Hb]. simpl. intros kv [A B]. split; [lia | exact B].
    + repeat constructor; simpl; lia.
Qed.

Lemma update_ok (task_id : Z) (title description status : option string)
    (now : datetime) (self : TaskStorage.t) :
  storage_ok self ->
  storage_ok (exec_state (TaskStorage.update task_id title description status now) self).
Proof.
  intros [Hs Hb]. unfold exec_state. rewrite update_run.
  destruct (PyDict.get task_id (TaskStorage.tasks self)) as [task|] eqn:E;
    [|split; assumption].
  unfold storage_ok, entries_ok. simpl. split.
  - erewrite keys_setitem_present by exact E. exact Hs.
  - apply Forall_setitem; [exact Hb|]. simpl.
    apply get_in_entries in E. rewrite Forall_forall in Hb. exact (Hb _ E).
Qed.

Lemma delete_ok (task_id : Z) (self : TaskStorage.t) :
  storage_ok self -> storage_ok (exec_state (TaskStorage.delete task_id) self).
Proof.
  intros [Hs Hb]. unfold exec_state. rewrite delete_run.
  destruct (PyDict.get task_id (TaskStorage.tasks self)); [|split; assumption].
  split; simpl; [now apply sorted_keys_delitem | now apply Forall_delitem].
Qed.

Lemma call_ok (c : TaskCall) (self : TaskStorage.t) :
  storage_ok self -> storage_ok (exec_state (call c) self).
Proof.
  intros Hok. destruct c; unfold call; rewrite exec_bind.
  - now apply create_ok.
  - now apply update_ok.
  - now apply delete_ok.
Qed.

Lemma call_ids (c : TaskCall) (self : TaskStorage.t) :
  map Task.id (eval_state (call c) self)
  = consecutive (TaskStorage.next_id self) (List.length (eval_state (call c) self))
  /\ TaskStorage.next_id (exec_state (call c) self)
     = TaskStorage.next_id self + Z.of_nat (List.length (eval_state (call c) self)).
Proof.
  destruct c; unfold call; rewrite exec_bind, eval_bind; unfold exec_state, eval_state.
  - rewrite create_run. simpl. split; [reflexivity | lia].
  - rewrite update_run.
    destruct (PyDict.get task_id (TaskStorage.tasks self)); simpl; split; trivial; lia.
  - rewrite delete_run.
    destruct (PyDict.get task_id (TaskStorage.tasks self)); simpl; split; trivial; lia.
Qed.

Lemma calls_cons (c : TaskCall) (cs : list TaskCall) (self : TaskStorage.t) :
  eval_state (calls (c :: cs)) self
  = eval_state (call c) self ++ eval_state (calls cs) (exec_state (call c) self)
  /\ exec_state (calls (c :: cs)) self
     = exec_state (calls cs) (exec_state (call c) self).
Proof.
  simpl. rewrite eval_bind, exec_bind, eval_bind, exec_bind. split; reflexivity.
Qed.

Lemma calls_ok (cs : list TaskCall) (self : TaskStorage.t) :
  storage_ok self -> storage_ok (exec_state (calls cs) self).
Proof.
  revert self. induction cs as [|c cs IH]; intros self Hok; [exact Hok|].
  rewrite (proj2 (calls_cons c cs self)). apply IH. now apply call_ok.
Qed.

Lemma consecutive_app (first : Z) (n m : nat) :
  consecutive first (n + m) = consecutive first n ++ consecutive (first + Z.of_nat n) m.
Proof.
  revert first. induction n as [|n IH]; intros first.
  - simpl. f_equal. lia.
  - cbn [consecutive Nat.add app]. rewrite IH. do 3 f_equal. lia.
Qed.

Lemma calls_ids (cs : list TaskCall) (self : TaskStorage.t) :
  map Task.id (eval_state (calls cs) self)
  = consecutive (TaskStorage.next_id self) (List.length (eval_state (calls cs) self))
  /\ TaskStorage.next_id (exec_state (calls cs) self)
     = TaskStorage.next_id self + Z.of_nat (List.length (eval_state (calls cs) self)).
Proof.
  revert self. induction cs as [|c cs IH]; intros self.
  - simpl. split; [reflexivity | unfold exec_state, ret; simpl; lia].
  - destruct (calls_cons c cs self) as [-> ->].
    destruct (call_ids c self) as [Hc Hn].
    destruct (IH (exec_state (call c) self)) as [Hcs Hns].
    rewrite map_app, length_app, consecutive_app, Hc, Hcs, Hn, Hns.
    split; [reflexivity | lia].
Qed.

Lemma consecutive_bounds (first : Z) (n : nat) :
  Forall (fun i => first <= i < first + Z.of_nat n) (consecutive first n).
Proof.
  revert first. induction n as [|n IH]; intros first; simpl; constructor.
  - lia.
  - eapply Forall_impl; [|apply IH]. simpl. lia.
Qed.

Lemma consecutive_sorted (first : Z) (n : nat) :
  StronglySorted Z.lt (consecutive first n).
Proof.
  revert first. induction n as [|n IH]; intros first; simpl; constructor.
  - apply IH.
  - eapply Forall_impl; [|apply consecutive_bounds]. simpl. lia.
Qed.

Lemma consecutive_NoDup (first : Z) (n : nat) : NoDup (consecutive first n).
Proof.
  revert first. induction n as [|n IH]; intros first; simpl; constructor.
  - intros Hin. pose proof (consecutive_bounds (first + 1) n) as Hb.
    rewrite Forall_forall in Hb. apply Hb in Hin. lia.
  - apply IH.
Qed.

Lemma ids_of_values (bound : Z) (d : PyDict.t Z Task.t) :
  entries_ok bound d -> map Task.id (PyDict.values d) = PyDict.keys d.
Proof.
  intros [_ Hb]. unfold PyDict.values, PyDict.keys. rewrite map_map.
  apply map_ext_in. intros kv Hin. rewrite Forall_forall in Hb. apply (Hb kv Hin).
Qed.

(** C3: run any sequence of [create], [update] and [delete] calls on a fresh
    task store.  The ids of the tasks the [create] calls returned are, in call
    order, 1, 2, ..., n: they start at 1, strictly increase (each is greater
    than every id assigned before it) and never repeat, deletions in between
    notwithstanding.  A further [create] then returns a task with id n + 1,
    greater than every id assigned so far, with [created_at] equal to
    [updated_at]; the task is stored under its id and an immediately following
    [get_all] lists it, in the last place. *)
Theorem create_assigns_fresh_sequential_ids :
  forall (cs : list TaskCall),
    let created := eval_state (calls cs) TaskStorage.init in
    let self := exec_state (calls cs) TaskStorage.init in
    map Task.id created = consecutive 1 (List.length created)
    /\ StronglySorted Z.lt (map Task.id created)
    /\ NoDup (map Task.id created)
    /\ (forall (title : string) (description : option string) (status : string)
               (now : datetime),
          let task :=
            eval_state (TaskStorage.create title description status now) self in
          let self' :=
            exec_state (TaskStorage.create title description status now) self in
          Task.id task = 1 + Z.of_nat (List.length created)
          /\ Forall (fun earlier => earlier < Task.id task) (map Task.id created)
          /\ Task.created_at task = Task.updated_at task
          /\ eval_state (TaskStorage.get (Task.id task)) self' = Some task
          /\ In task (eval_state (TaskStorage.get_all None) self')
          /\ eval_state (TaskStorage.get_all None) self'
             = eval_state (TaskStorage.get_all None) self ++ [task]).
Proof.
  intros cs created self.
  destruct (calls_ids cs TaskStorage.init) as [Hids Hnext].
  fold created in Hids, Hnext. fold self in Hnext.
  change (TaskStorage.next_id TaskStorage.init) with 1 in Hids, Hnext.
  split; [exact Hids|].
  split; [rewrite Hids; apply consecutive_sorted|].
  split; [rewrite Hids; apply consecutive_NoDup|].
  intros title description status now task self'.
  assert (Hok : storage_ok self) by (apply calls_ok, storage_ok_init).
  destruct (create_ok title description status now self Hok) as [_ Hlast].
  subst task self'. unfold eval_state, exec_state, TaskStorage.get, gets.
  rewrite create_run. simpl.
  split; [exact Hnext|].
  split.
  { rewrite Hids, Hnext. eapply Forall_impl; [|apply consecutive_bounds].
    simpl. lia. }
  split; [reflexivity|].
  split; [apply get_setitem_same|].
  split; [apply in_values_setitem|].
  rewrite Hlast. unfold PyDict.values. rewrite map_app. reflexivity.
Qed.

(** C5: in any task store reached from a fresh one by [create], [update] and
    [delete] calls, [get_all] with no status returns all the stored tasks, and
    [get_all] with one of pending, in_progress, completed returns exactly the
    tasks of that status, as the sublist of the full listing.  Both listings
    are in insertion order: ids strictly increase along them (ids are assigned
    in creation order), and a task created next is listed last.  The handler
    [list_tasks] answers with these listings. *)
Theorem get_all_filters_by_status_in_order :
  forall (cs : list TaskCall) (s : string),
    In s task_statuses ->
    let self := exec_state (calls cs) TaskStorage.init in
    let everything := eval_state (TaskStorage.get_all None) self in
    let matching := eval_state (TaskStorage.get_all (Some s)) self in
    everything = PyDict.values (TaskStorage.tasks self)
    /\ matching = filter (fun task => String.eqb (Task.status task) s) everything
    /\ (forall task : Task.t,
          In task matching <-> In task everything /\ Task.status task = s)
    /\ StronglySorted Z.lt (map Task.id everything)
    /\ StronglySorted Z.lt (map Task.id matching)
    /\ (forall (title : string) (description : option string) (status : string)
               (now : datetime),
          eval_state (TaskStorage.get_all None)
            (exec_state (TaskStorage.create title description status now) self)
          = everything
            ++ [eval_state (TaskStorage.create title description status now) self])
    /\ (forall w : World,
          task_storage w = self ->
          list_tasks None w = (inr everything, w)
          /\ list_tasks (Some s) w = (inr matching, w)).
Proof.
  intros cs s Hs self everything matching.
  assert (Hne : s <> ""%string).
  { intros ->. simpl in Hs. repeat (destruct Hs as [Hs|Hs]; [discriminate Hs|]).
    exact Hs. }
  assert (Hok : storage_ok self) by (apply calls_ok, storage_ok_init).
  assert (Hall : everything = PyDict.values (TaskStorage.tasks self)) by reflexivity.
  assert (Hmatch : matching
                   = filter (fun task => String.eqb (Task.status task) s) everything).
  { subst matching. unfold eval_state. rewrite get_all_filtered by exact Hne.
    reflexivity. }
  assert (Hsorted : StronglySorted Z.lt (map Task.id everything)).
  { rewrite Hall. rewrite (ids_of_values _ _ Hok). apply Hok. }
  split; [exact Hall|].
  split; [exact Hmatch|].
  split.
  { intros task. rewrite Hmatch, filter_In, String.eqb_eq. reflexivity. }
  split; [exact Hsorted|].
  split; [rewrite Hmatch; now apply sorted_map_filter|].
  split.
  { intros title description status now.
    destruct (create_ok title description status now self Hok) as [_ Hlast].
    unfold eval_state, exec_state. rewrite create_run. simpl.
    rewrite Hlast. unfold PyDict.values. rewrite map_app. rewrite Hall. reflexivity. }
  intros w Hw. split.
  - unfold list_tasks, TaskStorage.get_all. cbn [truthy andb]. unfold bind.
    rewrite on_task_storage_read, Hw. reflexivity.
  - unfold list_tasks. rewrite (proj2 (truthy_Some s) Hne).
    rewrite (proj2 (str_in_In s task_statuses) Hs). cbn [negb andb].
    destruct (get_all_reads (Some s)) as [f Hf]. unfold bind.
    rewrite Hf, on_task_storage_read, Hw. subst matching.
    unfold eval_state. rewrite Hf. reflexivity.
Qed.

Lemma get_all_filters_by_status_in_order_witness :
  eval_state (TaskStorage.get_all (Some "completed"%string)) sample_tasks
  = filter (fun task => String.eqb (Task.status task) "completed")
      (eval_state (TaskStorage.get_all None) sample_tasks)
  /\ StronglySorted Z.lt
       (map Task.id (eval_state (TaskStorage.get_all None) sample_tasks)).
Proof.
  assert (Hs : In "completed"%string task_statuses) by (simpl; tauto).
  destruct (get_all_filters_by_status_in_order
              [ CallCreate "T" None "pending" 10;
                CallCreate "U" (Some "notes") "in_progress" 20;
                CallUpdate 1 None None (Some "completed") 30 ]%string
              "completed"%string Hs)
    as (_ & Hmatch & _ & Hsorted & _).
  split; [exact Hmatch | exact Hsorted].
Defined.

(** ** The clock and [updated_at] *)

Lemma Forall_values_delitem {K V : Type} `{Hashable K} (P : V -> Prop) (k : K)
    (d : PyDict.t K V) :
  Forall P (PyDict.values d) -> Forall P (PyDict.values (PyDict.delitem k d)).
Proof.
  unfold PyDict.values. rewrite !Forall_map. apply Forall_delitem.
Qed.

Lemma call_stamped_by (clock : datetime) (c : TaskCall) (self : TaskStorage.t) :
  Forall (fun r => r <= clock) (reading c) ->
  stamped_by clock self -> stamped_by clock (exec_state (call c) self).
Proof.
  intros Hr Hs. destruct c; unfold call; rewrite exec_bind; unfold exec_state, stamped_by.
  - rewrite create_run. simpl. inversion Hr; subst.
    apply Forall_values_setitem; [exact Hs | assumption].
  - rewrite update_run.
    destruct (PyDict.get task_id (TaskStorage.tasks self)); [|exact Hs].
    simpl. inversion Hr; subst. apply Forall_values_setitem; [exact Hs | assumption].
  - rewrite delete_run.
    destruct (PyDict.get task_id (TaskStorage.tasks self)); [|exact Hs].
    simpl. now apply Forall_values_delitem.
Qed.

(** While the clock does not run backwards, the hypothesis of the update
    contract holds: after any calls whose readings are at most [clock], no
    stored task is stamped later than [clock]. *)
Lemma calls_stamped_by (clock : datetime) (cs : list TaskCall) (self : TaskStorage.t) :
  Forall (fun r => r <= clock) (readings cs) ->
  stamped_by clock self -> stamped_by clock (exec_state (calls cs) self).
Proof.
  revert self. induction cs as [|c cs IH]; intros self Hr Hs; [exact Hs|].
  unfold readings in Hr. simpl in Hr. apply Forall_app in Hr. destruct Hr as [Hc Hcs].
  rewrite (proj2 (calls_cons c cs self)). apply IH; [exact Hcs|].
  now apply call_stamped_by.
Qed.

Lemma stored_stamp_below_clock (clock : datetime) (cs : list TaskCall) (task_id : Z)
    (task : Task.t) :
  Forall (fun r => r <= clock) (readings cs) ->
  eval_state (TaskStorage.get task_id) (exec_state (calls cs) TaskStorage.init) = Some task ->
  Task.updated_at task <= clock.
Proof.
  intros Hr Hget.
  assert (Hs : stamped_by clock (exec_state (calls cs) TaskStorage.init)).
  { apply calls_stamped_by; [exact Hr | constructor]. }
  unfold stamped_by in Hs. rewrite Forall_forall in Hs. apply Hs.
  eapply get_in_values. exact Hget.
Qed.

(** C4, the claim as stated fails on "[updated_at] is always at least the
    previous [updated_at]": the stamp is whatever the clock reads at the call.
    Task 2 was last stamped at 20; an update at a reading of 5 returns it
    stamped 5. *)
Lemma update_stamps_the_clock_reading :
  eval_state (TaskStorage.get 2) sample_tasks
  = Some (Task.mk 2 "U" (Some "notes"%string) "in_progress" 20 20)
  /\ eval_state (TaskStorage.update 2 None None (Some "completed"%string) 5) sample_tasks
     = Some (Task.mk 2 "U" (Some "notes"%string) "completed" 20 5)
  /\ ~ (20 <= 5).
Proof.
  split; [reflexivity|]. split; [reflexivity | lia].
Qed.

(** C4, amended: [TaskStorage.update] on an absent id returns [None] and
    leaves the store as it was.  On a stored task it returns the stored task,
    in which each provided field holds the new value and each omitted one its
    old value; [id] and [created_at] are kept; [updated_at] is the clock
    reading of the call, provided or not any field, so it is at least the
    previous [updated_at] exactly when that reading is not earlier than the
    previous stamp; every other id reads as before, and the keys, their order
    and [next_id] are the same.  In a store reached from a fresh one by calls
    none of which read the clock later than this call does, the new
    [updated_at] is at least the previous one. *)
Theorem update_replaces_provided_fields :
  (forall (self : TaskStorage.t) (task_id : Z) (title description status : option string)
          (now : datetime),
     let returned :=
       eval_state (TaskStorage.update task_id title description status now) self in
     let self' :=
       exec_state (TaskStorage.update task_id title description status now) self in
     (eval_state (TaskStorage.get task_id) self = None ->
        returned = None /\ self' = self)
     /\ (forall task, eval_state (TaskStorage.get task_id) self = Some task ->
           exists task',
             returned = Some task'
             /\ eval_state (TaskStorage.get task_id) self' = Some task'
             /\ Task.title task'
                = match title with Some x => x | None => Task.title task end
             /\ Task.description task'
                = match description with
                  | Some x => Some x
                  | None => Task.description task
                  end
             /\ Task.status task'
                = match status with Some x => x | None => Task.status task end
             /\ Task.id task' = Task.id task
             /\ Task.created_at task' = Task.created_at task
             /\ Task.updated_at task' = now
             /\ (Task.updated_at task <= Task.updated_at task'
                 <-> Task.updated_at task <= now)
             /\ (forall other : Z, other <> task_id ->
                   eval_state (TaskStorage.get other) self'
                   = eval_state (TaskStorage.get other) self)
             /\ PyDict.keys (TaskStorage.tasks self')
                = PyDict.keys (TaskStorage.tasks self)
             /\ TaskStorage.next_id self' = TaskStorage.next_id self))
  /\ (forall (cs : list TaskCall) (task_id : Z) (title description status : option string)
             (now : datetime) (task : Task.t),
        Forall (fun r => r <= now) (readings cs) ->
        eval_state (TaskStorage.get task_id) (exec_state (calls cs) TaskStorage.init)
        = Some task ->
        exists task',
          eval_state (TaskStorage.update task_id title description status now)
            (exec_state (calls cs) TaskStorage.init)
          = Some task'
          /\ Task.updated_at task <= Task.updated_at task').
Proof.
  split.
  - intros self task_id title description status now returned self'.
    subst returned self'.
    unfold eval_state, exec_state, TaskStorage.get, gets in *. simpl in *.
    rewrite update_run.
    destruct (PyDict.get task_id (TaskStorage.tasks self)) as [task|] eqn:E; simpl.
    + split; [discriminate|].
      intros task0 [= <-].
      eexists. split; [reflexivity|].
      split; [apply get_setitem_same|].
      simpl. do 6 (split; [reflexivity|]).
      split; [tauto|].
      split; [intros other N; now apply get_setitem_other|].
      split; [eapply keys_setitem_present; eassumption | reflexivity].
    + split; [auto | discriminate].
  - intros cs task_id title description status now task Hclock Hget.
    pose proof (stored_stamp_below_clock now cs task_id task Hclock Hget) as Hle.
    unfold eval_state, TaskStorage.get, gets in *. simpl in Hget.
    rewrite update_run, Hget. simpl.
    eexists. split; [reflexivity|]. simpl. exact Hle.
Qed.

Lemma update_replaces_provided_fields_witness :
  exists task',
    eval_state (TaskStorage.update 1 None None (Some "pending"%string) 40)
      (exec_state (calls sample_calls) TaskStorage.init)
    = Some task'
    /\ 30 <= Task.updated_at task'.
Proof.
  assert (Hclock : Forall (fun r => r <= 40) (readings sample_calls)).
  { change (readings sample_calls) with [10; 20; 30]. repeat constructor; lia. }
  exact (proj2 update_replaces_provided_fields sample_calls 1 None None
           (Some "pending"%string) 40 (Task.mk 1 "T" None "completed" 10 30)
           Hclock eq_refl).
Defined.

(** ** More on the task store *)

Lemma delitem_delitem {K V : Type} `{Hashable K} (a b : K) (d : PyDict.t K V) :
  PyDict.delitem a (PyDict.delitem b d) = PyDict.delitem b (PyDict.delitem a d).
Proof.
  induction d as [|[k' v'] d IH]; simpl; trivial.
  destruct (key_eq_dec b k') as [Eb|Nb], (key_eq_dec a k') as [Ea|Na]; simpl;
    try (destruct (key_eq_dec a k')); try (destruct (key_eq_dec b k'));
    try contradiction; try congruence.
Qed.

Lemma sorted_lt_NoDup (l : list Z) : StronglySorted Z.lt l -> NoDup l.
Proof.
  induction 1 as [|a l Hl IH Ha]; constructor; [|exact IH].
  intros Hin. rewrite Forall_forall in Ha. apply Ha in Hin. lia.
Qed.

Lemma in_entries_get {K V : Type} `{Hashable K} (k : K) (v : V) (d : PyDict.t K V) :
  NoDup (PyDict.keys d) -> In (k, v) d -> PyDict.get k d = Some v.
Proof.
  induction d as [|[k' v'] d IH]; simpl; [contradiction|].
  intros Hnd Hin. inversion Hnd as [|? ? Hk Hd]; subst.
  destruct (key_eq_dec k k') as [->|N].
  - destruct Hin as [E|Hin]; [congruence|].
    exfalso. apply Hk. unfold PyDict.keys. apply in_map_iff. now exists (k', v).
  - destruct Hin as [E|Hin]; [congruence | auto].
Qed.

Lemma call_keys_from_one (c : TaskCall) (self : TaskStorage.t) :
  1 <= TaskStorage.next_id self ->
  Forall (fun k => 1 <= k) (PyDict.keys (TaskStorage.tasks self)) ->
  1 <= TaskStorage.next_id (exec_state (call c) self)
  /\ Forall (fun k => 1 <= k) (PyDict.keys (TaskStorage.tasks (exec_state (call c) self))).
Proof.
  intros Hn Hk. destruct c; unfold call; rewrite exec_bind; unfold exec_state.
  - rewrite create_run. simpl. split; [lia|].
    unfold PyDict.keys in *. rewrite Forall_map in *.
    apply Forall_setitem; [exact Hk | exact Hn].
  - rewrite update_run.
    destruct (PyDict.get task_id (TaskStorage.tasks self)) as [task|] eqn:E; [|tauto].
    simpl. split; [exact Hn|]. erewrite keys_setitem_present by exact E. exact Hk.
  - rewrite delete_run.
    destruct (PyDict.get task_id (TaskStorage.tasks self)); [|tauto].
    simpl. split; [exact Hn|].
    unfold PyDict.keys in *. rewrite Forall_map in *. now apply Forall_delitem.
Qed.

Lemma calls_keys_from_one (cs : list TaskCall) (self : TaskStorage.t) :
  1 <= TaskStorage.next_id self ->
  Forall (fun k => 1 <= k) (PyDict.keys (TaskStorage.tasks self)) ->
  Forall (fun k => 1 <= k) (PyDict.keys (TaskStorage.tasks (exec_state (calls cs) self))).
Proof.
  revert self. induction cs as [|c cs IH]; intros self Hn Hk; [exact Hk|].
  rewrite (proj2 (calls_cons c cs self)).
  destruct (call_keys_from_one c self Hn Hk) as [Hn' Hk']. now apply IH.
Qed.

(** X1: in every task store reached from a fresh one by [create], [update]
    and [delete] calls, a task stored under an id carries that id, and the id
    is at least 1 and below [next_id]; the listing of [get_all] has no two
    tasks with the same id; and [get_all] and [get] agree: a task is listed
    exactly when [get] on its id returns it. *)
Theorem listing_and_lookup_agree :
  forall (cs : list TaskCall),
    let self := exec_state (calls cs) TaskStorage.init in
    (forall (task_id : Z) (task : Task.t),
       eval_state (TaskStorage.get task_id) self = Some task ->
       Task.id task = task_id /\ 1 <= task_id < TaskStorage.next_id self)
    /\ NoDup (map Task.id (eval_state (TaskStorage.get_all None) self))
    /\ (forall task : Task.t,
          In task (eval_state (TaskStorage.get_all None) self)
          <-> eval_state (TaskStorage.get (Task.id task)) self = Some task).
Proof.
  intros cs self.
  assert (Hok : storage_ok self) by (apply calls_ok, storage_ok_init).
  assert (Hone : Forall (fun k => 1 <= k) (PyDict.keys (TaskStorage.tasks self))).
  { apply calls_keys_from_one; [simpl; lia | constructor]. }
  pose proof (ids_of_values _ _ Hok) as Hids.
  destruct Hok as [Hs Hb].
  pose proof (sorted_lt_NoDup _ Hs) as Hnd.
  unfold eval_state, TaskStorage.get, TaskStorage.get_all, gets. simpl.
  rewrite Forall_forall in Hb, Hone.
  split; [|split].
  - intros task_id task Hget. apply get_in_entries in Hget.
    pose proof (Hb _ Hget) as [Hlt Hid]. simpl in Hlt, Hid.
    split; [exact Hid|]. split; [|exact Hlt].
    apply Hone. unfold PyDict.keys. apply in_map_iff. now exists (task_id, task).
  - rewrite Hids. exact Hnd.
  - intros task. split.
    + intros Hin. unfold PyDict.values in Hin. apply in_map_iff in Hin.
      destruct Hin as ([k v] & E & Hin). simpl in E. subst v.
      pose proof (Hb _ Hin) as [_ Hid]. simpl in Hid. rewrite Hid.
      now apply in_entries_get.
    + intros Hget. eapply get_in_values. exact Hget.
Qed.

(** X2: two [update] calls on the same id amount to one: the second call's
    clock reading, and for each field the second call's value when it gives
    one, else the first call's.  Both the task returned and the store are
    those of the single merged call. *)
Theorem update_twice_is_merged_update :
  forall (self : TaskStorage.t) (task_id : Z)
         (title description status title' description' status' : option string)
         (now now' : datetime),
    let self1 :=
      exec_state (TaskStorage.update task_id title description status now) self in
    TaskStorage.update task_id title' description' status' now' self1
    = TaskStorage.update task_id (later_or title' title)
        (later_or description' description) (later_or status' status) now' self.
Proof.
  intros self task_id title description status title' description' status' now now' self1.
  subst self1. unfold exec_state. rewrite !update_run.
  destruct (PyDict.get task_id (TaskStorage.tasks self)) as [task|] eqn:E; simpl.
  - rewrite get_setitem_same. unfold TaskStorage.with_tasks. simpl.
    rewrite setitem_setitem.
    destruct title, description, status, title', description', status'; reflexivity.
  - rewrite E. reflexivity.
Qed.

(** X3: [delete] is idempotent and order-independent: deleting an id again
    right after deleting it returns [False] and changes nothing, and deleting
    two ids in either order leaves the same store. *)
Theorem delete_again_and_in_any_order :
  forall (self : TaskStorage.t) (a b : Z),
    TaskStorage.delete a (exec_state (TaskStorage.delete a) self)
    = (false, exec_state (TaskStorage.delete a) self)
    /\ exec_state (TaskStorage.delete a) (exec_state (TaskStorage.delete b) self)
       = exec_state (TaskStorage.delete b) (exec_state (TaskStorage.delete a) self).
Proof.
  intros self a b. split.
  - unfold exec_state. rewrite (delete_run a self).
    destruct (PyDict.get a (TaskStorage.tasks self)) eqn:E; simpl.
    + rewrite delete_run. simpl. rewrite get_delitem_same. reflexivity.
    + rewrite delete_run, E. reflexivity.
  - unfold exec_state. rewrite (delete_run b self), (delete_run a self).
    destruct (PyDict.get a (TaskStorage.tasks self)) eqn:Ea,
             (PyDict.get b (TaskStorage.tasks self)) eqn:Eb; simpl;
      rewrite !delete_run; simpl.
    + destruct (Z.eq_dec a b) as [->|N].
      * rewrite get_delitem_same. reflexivity.
      * rewrite (get_delitem_other b a) by exact N.
        rewrite (get_delitem_other a b) by congruence.
        rewrite Ea, Eb. simpl. unfold TaskStorage.with_tasks. simpl.
        now rewrite delitem_delitem.
    + destruct (Z.eq_dec a b) as [->|N]; [congruence|].
      rewrite Ea. rewrite (get_delitem_other a b) by congruence. rewrite Eb. reflexivity.
    + destruct (Z.eq_dec a b) as [->|N]; [congruence|].
      rewrite Eb. rewrite (get_delitem_other b a) by exact N. rewrite Ea. reflexivity.
    + rewrite Ea, Eb. reflexivity.
Qed.

Lemma call_stamps_ordered (c : TaskCall) (self : TaskStorage.t) (lo : datetime) :
  Forall (fun task => Task.created_at task <= Task.updated_at task <= lo)
    (PyDict.values (TaskStorage.tasks self)) ->
  Forall (fun r => lo <= r) (reading c) ->
  Forall (fun task => Task.created_at task <= Task.updated_at task <= hd lo (reading c))
    (PyDict.values (TaskStorage.tasks (exec_state (call c) self))).
Proof.
  intros Hs Hr. destruct c; unfold call; rewrite exec_bind; unfold exec_state; simpl hd.
  - inversion Hr; subst. rewrite create_run. simpl.
    apply Forall_values_setitem; [|simpl; lia].
    eapply Forall_impl; [|exact Hs]. simpl. lia.
  - inversion Hr; subst. rewrite update_run.
    destruct (PyDict.get task_id (TaskStorage.tasks self)) as [task|] eqn:E; simpl.
    + apply Forall_values_setitem.
      * eapply Forall_impl; [|exact Hs]. simpl. lia.
      * simpl. apply get_in_values in E. rewrite Forall_forall in Hs.
        specialize (Hs _ E). lia.
    + eapply Forall_impl; [|exact Hs]. simpl. lia.
  - rewrite delete_run.
    destruct (PyDict.get task_id (TaskStorage.tasks self)); simpl; [|exact Hs].
    now apply Forall_values_delitem.
Qed.

Lemma calls_stamps_ordered (cs : list TaskCall) (self : TaskStorage.t) (lo : datetime) :
  Forall (fun task => Task.created_at task <= Task.updated_at task <= lo)
    (PyDict.values (TaskStorage.tasks self)) ->
  Forall (fun r => lo <= r) (readings cs) ->
  StronglySorted Z.le (readings cs) ->
  Forall (fun task => Task.created_at task <= Task.updated_at task)
    (PyDict.values (TaskStorage.tasks (exec_state (calls cs) self))).
Proof.
  revert self lo. induction cs as [|c cs IH]; intros self lo Hs Hlo Hsorted.
  - eapply Forall_impl; [|exact Hs]. simpl. lia.
  - rewrite (proj2 (calls_cons c cs self)).
    unfold readings in Hlo, Hsorted. simpl in Hlo, Hsorted.
    apply Forall_app in Hlo. destruct Hlo as [Hc Hcs].
    apply (IH _ (hd lo (reading c))).
    + now apply call_stamps_ordered.
    + destruct c; simpl in *; try exact Hcs;
        inversion Hsorted; subst; assumption.
    + destruct c; simpl in *; try exact Hsorted;
        inversion Hsorted; subst; assumption.
Qed.

(** X5: when the clock readings of a client's calls never decrease, every
    task in the store it reaches has [created_at] at most [updated_at]. *)
Theorem created_at_is_at_most_updated_at :
  forall (cs : list TaskCall),
    StronglySorted Z.le (readings cs) ->
    Forall (fun task => Task.created_at task <= Task.updated_at task)
      (eval_state (TaskStorage.get_all None) (exec_state (calls cs) TaskStorage.init)).
Proof.
  intros cs Hsorted.
  apply (calls_stamps_ordered cs TaskStorage.init (hd 0 (readings cs))).
  - constructor.
  - destruct (readings cs) as [|r rs]; [constructor|].
    simpl. inversion Hsorted; subst. constructor; [lia | assumption].
  - exact Hsorted.
Qed.

Lemma created_at_is_at_most_updated_at_witness :
  Forall (fun task => Task.created_at task <= Task.updated_at task)
    (eval_state (TaskStorage.get_all None)
       (exec_state (calls sample_calls) TaskStorage.init)).
Proof.
  apply created_at_is_at_most_updated_at.
  change (readings sample_calls) with [10; 20; 30].
  repeat (constructor; try lia).
Defined.

Lemma filter_status_lengths (l : list Task.t) :
  Forall (fun task => In (Task.status task) task_statuses) l ->
  List.length l
  = (List.length (filter (fun task => String.eqb (Task.status task) "pending") l)
     + List.length (filter (fun task => String.eqb (Task.status task) "in_progress") l)
     + List.length (filter (fun task => String.eqb (Task.status task) "completed") l))%nat.
Proof.
  induction 1 as [|task l Hs Hl IH]; [reflexivity|].
  simpl in Hs. simpl filter.
  destruct Hs as [E|[E|[E|[]]]]; rewrite <- E; simpl; rewrite IH; lia.
Qed.

(** X6: when every stored task has one of the statuses pending, in_progress,
    completed, the three filtered listings of [get_all] together have as many
    tasks as the unfiltered listing, and no task is in two of them. *)
Theorem filtered_listings_partition :
  forall (self : TaskStorage.t),
    Forall (fun task => In (Task.status task) task_statuses)
      (eval_state (TaskStorage.get_all None) self) ->
    List.length (eval_state (TaskStorage.get_all None) self)
    = (List.length (eval_state (TaskStorage.get_all (Some "pending"%string)) self)
       + List.length (eval_state (TaskStorage.get_all (Some "in_progress"%string)) self)
       + List.length (eval_state (TaskStorage.get_all (Some "completed"%string)) self))%nat
    /\ (forall (s s' : string) (task : Task.t),
          In task (eval_state (TaskStorage.get_all (Some s)) self) ->
          In task (eval_state (TaskStorage.get_all (Some s')) self) ->
          s <> ""%string -> s' <> ""%string -> s = s').
Proof.
  intros self Hall. split.
  - unfold eval_state in *. rewrite !get_all_filtered by discriminate.
    rewrite get_all_unfiltered in *. simpl in *. now apply filter_status_lengths.
  - intros s s' task Hin Hin' Hs Hs'. unfold eval_state in *.
    rewrite get_all_filtered in Hin by exact Hs.
    rewrite get_all_filtered in Hin' by exact Hs'.
    simpl in Hin, Hin'. apply filter_In in Hin, Hin'.
    destruct Hin as [_ E], Hin' as [_ E'].
    apply String.eqb_eq in E, E'. congruence.
Qed.

Lemma filtered_listings_partition_witness :
  List.length (eval_state (TaskStorage.get_all None) sample_tasks)
  = (List.length (eval_state (TaskStorage.get_all (Some "pending"%string)) sample_tasks)
     + List.length (eval_state (TaskStorage.get_all (Some "in_progress"%string)) sample_tasks)
     + List.length (eval_state (TaskStorage.get_all (Some "completed"%string)) sample_tasks))%nat.
Proof.
  apply (filtered_listings_partition sample_tasks).
  repeat constructor; simpl; tauto.
Defined.

(** ** More on the handlers *)

Lemma on_task_storage_run {A : Type} (m : State TaskStorage.t A) (w : World) :
  on_task_storage m w
  = (eval_state m (task_storage w),
     mkWorld (exec_state m (task_storage w)) (job_storage w) (stdout w)).
Proof.
  unfold on_task_storage, eval_state, exec_state.
  destruct (m (task_storage w)); reflexivity.
Qed.

Lemma on_job_storage_run {A : Type} (m : State JobStorage.t A) (w : World) :
  on_job_storage m w
  = (eval_state m (job_storage w),
     mkWorld (task_storage w) (exec_state m (job_storage w)) (stdout w)).
Proof.
  unfold on_job_storage, eval_state, exec_state.
  destruct (m (job_storage w)); reflexivity.
Qed.

(** X4: for an id under which no task is stored, each of [get_task],
    [update_task], [delete_task] and [notify_task_creation] raises the 404
    HTTPException "Task with id <id> not found", leaves the state as it was
    and, for the last, queues nothing. *)
Theorem absent_task_is_not_found :
  forall (w : World) (task_id : Z) (task_data : TaskUpdate.t) (now : datetime)
         (background_tasks : BackgroundTasks),
    eval_state (TaskStorage.get task_id) (task_storage w) = None ->
    get_task task_id w = (inl (task_not_found task_id), w)
    /\ update_task task_id task_data now w = (inl (task_not_found task_id), w)
    /\ delete_task task_id w = (inl (task_not_found task_id), w)
    /\ notify_task_creation task_id background_tasks w
       = ((inl (task_not_found task_id), background_tasks), w)
    /\ task_not_found task_id
       = mkHTTPException 404 ("Task with id " ++ str_of_int task_id ++ " not found")%string.
Proof.
  intros w task_id task_data now background_tasks Habsent.
  unfold eval_state, TaskStorage.get, gets in Habsent. simpl in Habsent.
  unfold get_task, update_task, delete_task, notify_task_creation, bind.
  rewrite !on_task_storage_run. unfold eval_state, exec_state.
  rewrite update_run, delete_run. unfold TaskStorage.get, gets. simpl.
  rewrite Habsent. simpl. rewrite world_eta.
  repeat (split; [reflexivity|]). reflexivity.
Qed.

Lemma absent_task_is_not_found_witness :
  update_task 7 (TaskUpdate.mk (Some "V"%string) None None) 40 sample_world
  = (inl (mkHTTPException 404 "Task with id 7 not found"), sample_world).
Proof.
  destruct (absent_task_is_not_found sample_world 7
              (TaskUpdate.mk (Some "V"%string) None None) 40 [] eq_refl)
    as (_ & Hupdate & _).
  exact Hupdate.
Defined.

(** X7: [create_task] stores the task it returns: it has the next id, the
    fields of the request body and both stamps equal to the clock reading;
    [get_task] on its id then returns it, the unfiltered [list_tasks] lists
    it, [next_id] has advanced by one, and neither the job store nor the
    output has changed. *)
Theorem create_task_then_get_task :
  forall (w : World) (task_data : TaskCreate.t) (now : datetime),
    let task := eval_state (create_task task_data now) w in
    let w' := exec_state (create_task task_data now) w in
    task = Task.mk (TaskStorage.next_id (task_storage w)) (TaskCreate.title task_data)
             (TaskCreate.description task_data) (TaskCreate.status task_data) now now
    /\ get_task (Task.id task) w' = (inr task, w')
    /\ (exists listed, list_tasks None w' = (inr listed, w') /\ In task listed)
    /\ TaskStorage.next_id (task_storage w') = TaskStorage.next_id (task_storage w) + 1
    /\ job_storage w' = job_storage w
    /\ stdout w' = stdout w.
Proof.
  intros w task_data now task w'. subst task w'.
  unfold eval_state, exec_state, create_task. rewrite on_task_storage_run.
  unfold eval_state, exec_state. rewrite create_run. simpl.
  split; [reflexivity|].
  split.
  { unfold get_task, bind. rewrite on_task_storage_run.
    unfold eval_state, exec_state, TaskStorage.get, gets. simpl.
    rewrite get_setitem_same. reflexivity. }
  split.
  { eexists. split.
    - unfold list_tasks, TaskStorage.get_all. cbn [truthy andb]. unfold bind.
      rewrite on_task_storage_read. reflexivity.
    - simpl. apply in_values_setitem. }
  repeat split.
Qed.

(** X8: [notify_task_creation] on a stored task changes nothing, answers
    "Notification queued for task <id>" and adds one deferred call after those
    already queued, carrying the id and the title the task has at that moment.
    Whenever that call runs, in whatever state (the task renamed or deleted in
    between), it prints the line with that title and touches neither store. *)
Theorem notification_carries_title_at_request :
  forall (w : World) (task_id : Z) (background_tasks : BackgroundTasks) (task : Task.t),
    eval_state (TaskStorage.get task_id) (task_storage w) = Some task ->
    notify_task_creation task_id background_tasks w
    = ((inr [("message", "Notification queued for task " ++ str_of_int task_id)]%string,
        background_tasks ++ [SendNotification task_id (Task.title task)]),
       w)
    /\ forall (later : World) (now : datetime),
         run_background_task (SendNotification task_id (Task.title task)) now later
         = (tt,
            mkWorld (task_storage later) (job_storage later)
              (stdout later
               ++ ["NOTIFICATION SENT: Task '" ++ Task.title task ++ "' (ID: "
                   ++ str_of_int task_id ++ ") has been created"]%string)).
Proof.
  intros w task_id background_tasks task Hget.
  unfold eval_state, TaskStorage.get, gets in Hget. simpl in Hget.
  split.
  - unfold notify_task_creation, bind. rewrite on_task_storage_run.
    unfold eval_state, exec_state, TaskStorage.get, gets. simpl.
    rewrite Hget, world_eta. reflexivity.
  - intros later now. reflexivity.
Qed.

Lemma notification_carries_title_at_request_witness :
  stdout
    (exec_state
       (run_background_task (SendNotification 2 "U") 50)
       (exec_state (delete_task 2) sample_world))
  = ["NOTIFICATION SENT: Task 'U' (ID: 2) has been created"%string].
Proof.
  destruct (notification_carries_title_at_request sample_world 2 []
              (Task.mk 2 "U" (Some "notes"%string) "in_progress" 20 20) eq_refl)
    as [_ Hrun].
  specialize (Hrun (exec_state (delete_task 2) sample_world) 50).
  cbn [Task.title] in Hrun. unfold exec_state at 1. rewrite Hrun. reflexivity.
Defined.

(** ** More on the job pipeline *)

Lemma runner_run (job_id : string) (data : list string) (delay : float) (now : datetime)
    (w : World) :
  exec_state (process_job_background job_id data delay now) w
  = exec_state (process_job_background_finish job_id data now)
      (exec_state (process_job_background_start job_id now) w).
Proof.
  unfold process_job_background, process_job_background_steps. cbn [run_steps].
  rewrite !exec_bind. reflexivity.
Qed.

Lemma runner_run_found (job_id : string) (data : list string) (delay : float)
    (now : datetime) (w : World) (job : ProcessJob.t) :
  PyDict.get job_id (JobStorage.jobs (job_storage w)) = Some job ->
  exec_state (process_job_background job_id data delay now) w
  = mkWorld (task_storage w)
      (JobStorage.with_jobs
         (PyDict.setitem job_id
            (ProcessJob.mk (ProcessJob.id job) "completed" (ProcessJob.data job)
               (Some (job_summary data)) (ProcessJob.created_at job) (Some now)))
         (job_storage w))
      (stdout w ++ ["JOB COMPLETED: " ++ job_id ++ " - " ++ job_summary data]%string).
Proof.
  intros Hjob. rewrite runner_run, start_run, finish_run. simpl.
  unfold exec_state. rewrite (update_status_run job_id "processing"), Hjob. simpl.
  rewrite update_status_run. simpl. rewrite get_setitem_same. simpl.
  unfold JobStorage.with_jobs. simpl. rewrite setitem_setitem. reflexivity.
Qed.

(** X9: [start_background_job] names the job "job-" followed by the first
    eight characters of the uuid's hex form, stores it as queued with the
    request's data, no result and no [completed_at], so that [get_job_status]
    on the returned id answers with exactly that job; it adds one deferred run
    of the lifecycle runner with the same id, data and delay after the calls
    already queued, and leaves the other jobs, the task store and the output
    as they were. *)
Theorem start_background_job_queues_job :
  forall (w : World) (job_data : ProcessJobCreate.t) (background_tasks : BackgroundTasks)
         (uuid4_hex : string) (now : datetime),
    let job_id := ("job-" ++ substring 0 8 uuid4_hex)%string in
    let w' :=
      exec_state (start_background_job job_data background_tasks uuid4_hex now) w in
    eval_state (start_background_job job_data background_tasks uuid4_hex now) w
    = ([ ("message", "Job queued for processing");
         ("job_id", job_id);
         ("status_url", "/jobs/" ++ job_id) ]%string,
       background_tasks
       ++ [ProcessJobBackground job_id (ProcessJobCreate.data job_data)
             (ProcessJobCreate.delay job_data)])
    /\ get_job_status job_id w'
       = (inr (ProcessJob.mk job_id "queued" (ProcessJobCreate.data job_data) None now None),
          w')
    /\ (forall other : string, other <> job_id ->
          eval_state (JobStorage.get other) (job_storage w')
          = eval_state (JobStorage.get other) (job_storage w))
    /\ task_storage w' = task_storage w
    /\ stdout w' = stdout w.
Proof.
  intros w job_data background_tasks uuid4_hex now job_id w'. subst w'.
  unfold eval_state, exec_state, start_background_job. fold job_id.
  unfold bind. rewrite on_job_storage_run. simpl.
  split; [reflexivity|].
  split.
  { unfold get_job_status, bind. rewrite on_job_storage_run.
    unfold eval_state, exec_state, JobStorage.get, gets. simpl.
    rewrite get_setitem_same. reflexivity. }
  split.
  { intros other N. unfold JobStorage.get, gets. simpl.
    now apply get_setitem_other. }
  split; reflexivity.
Qed.

(** X10: a submitted job runs to completion.  After [start_background_job]
    and then the deferred call it queued, [get_job_status] on the job id
    answers with the job completed: the request's data, the summary of that
    data as result, [created_at] the reading at submission and [completed_at]
    the reading of the run.  If "completed_at is set exactly when the status
    is completed" held for every job before the submission, it holds after the
    submission, at the runner's sleep, and after the run. *)
Theorem submitted_job_runs_to_completion :
  forall (w : World) (job_data : ProcessJobCreate.t) (background_tasks : BackgroundTasks)
         (uuid4_hex : string) (now now' : datetime),
    let job_id := ("job-" ++ substring 0 8 uuid4_hex)%string in
    let deferred :=
      ProcessJobBackground job_id (ProcessJobCreate.data job_data)
        (ProcessJobCreate.delay job_data) in
    let w1 :=
      exec_state (start_background_job job_data background_tasks uuid4_hex now) w in
    let w2 := exec_state (run_background_task deferred now') w1 in
    snd (eval_state (start_background_job job_data background_tasks uuid4_hex now) w)
    = background_tasks ++ [deferred]
    /\ get_job_status job_id w2
       = (inr (ProcessJob.mk job_id "completed" (ProcessJobCreate.data job_data)
                 (Some (job_summary (ProcessJobCreate.data job_data))) now (Some now')),
          w2)
    /\ (jobs_inv (job_storage w) ->
        jobs_inv (job_storage w1)
        /\ jobs_inv (job_storage (exec_state (process_job_background_start job_id now') w1))
        /\ jobs_inv (job_storage w2)).
Proof.
  intros w job_data background_tasks uuid4_hex now now' job_id deferred w1 w2.
  assert (E1 : w1 = mkWorld (task_storage w)
                      (exec_state
                         (JobStorage.create job_id (ProcessJobCreate.data job_data) now)
                         (job_storage w))
                      (stdout w)).
  { subst w1. unfold exec_state, start_background_job. fold job_id.
    unfold bind. rewrite on_job_storage_run. reflexivity. }
  assert (Hq : PyDict.get job_id (JobStorage.jobs (job_storage w1))
               = Some (ProcessJob.mk job_id "queued" (ProcessJobCreate.data job_data)
                         None now None)).
  { rewrite E1. simpl. apply get_setitem_same. }
  assert (E2 : w2 = exec_state
                      (process_job_background job_id (ProcessJobCreate.data job_data)
                         (ProcessJobCreate.delay job_data) now') w1) by reflexivity.
  split.
  { unfold eval_state, start_background_job. fold job_id.
    unfold bind. rewrite on_job_storage_run. reflexivity. }
  split.
  { rewrite E2, (runner_run_found _ _ _ _ _ _ Hq).
    unfold get_job_status, bind. rewrite on_job_storage_run.
    unfold eval_state, exec_state, JobStorage.get, gets. simpl.
    rewrite get_setitem_same. reflexivity. }
  intros Hinv.
  assert (H1 : jobs_inv (job_storage w1)).
  { rewrite E1. simpl. now apply create_job_inv. }
  assert (Hs : jobs_inv
                 (job_storage (exec_state (process_job_background_start job_id now') w1))).
  { rewrite start_run. simpl. apply update_status_job_inv; [exact H1|].
    right. intros job Hjob. pose proof (eq_trans (eq_sym Hjob) Hq) as E.
    injection E as ->. simpl. discriminate. }
  split; [exact H1|]. split; [exact Hs|].
  rewrite E2, runner_run, finish_run. simpl.
  apply update_status_job_inv; [exact Hs | now left].
Qed.

Lemma submitted_job_runs_to_completion_witness :
  jobs_inv
    (job_storage
       (exec_state
          (run_background_task (ProcessJobBackground "job-01234567" ["x"]%string (1 # 2)) 60)
          (exec_state
             (start_background_job (ProcessJobCreate.mk ["x"]%string (1 # 2)) []
                "0123456789abcdef0123456789abcdef" 50)
             sample_world))).
Proof.
  destruct (submitted_job_runs_to_completion sample_world
              (ProcessJobCreate.mk ["x"]%string (1 # 2)) []
              "0123456789abcdef0123456789abcdef" 50 60) as (_ & _ & Hinv).
  apply Hinv.
  constructor; [|constructor]. apply job_inv_queued.
Defined.

(** X11: the lifecycle runner on a job id that is not in the store, with a
    delay [time.sleep] returns on, changes neither store: both [update_status]
    calls find nothing.  It still prints the "JOB COMPLETED" line with the
    summary. *)
Theorem runner_on_missing_job_only_prints :
  forall (w : World) (job_id : string) (data : list string) (delay : float)
         (now : datetime),
    eval_state (JobStorage.get job_id) (job_storage w) = None ->
    sleep_returns delay ->
    process_job_background job_id data delay now w
    = (tt,
       mkWorld (task_storage w) (job_storage w)
         (stdout w ++ ["JOB COMPLETED: " ++ job_id ++ " - " ++ job_summary data]%string)).
Proof.
  intros w job_id data delay now Habsent Hdelay.
  unfold eval_state, JobStorage.get, gets in Habsent. simpl in Habsent.
  rewrite run_eq. f_equal.
  - destruct (eval_state _ w). reflexivity.
  - rewrite runner_run, start_run, finish_run. simpl.
    unfold exec_state. rewrite (update_status_run job_id "processing"), Habsent. simpl.
    rewrite update_status_run, Habsent. reflexivity.
Qed.

Lemma runner_on_missing_job_only_prints_witness :
  job_storage (exec_state (process_job_background "job-9" ["a"]%string (1 # 10) 15)
                 sample_world)
  = job_storage sample_world.
Proof.
  assert (Hdelay : sleep_returns (1 # 10)).
  { split; unfold Qle; simpl; lia. }
  unfold exec_state.
  rewrite (runner_on_missing_job_only_prints sample_world "job-9" ["a"]%string (1 # 10) 15
             eq_refl Hdelay).
  reflexivity.
Defined.

(** X12: no job id ever leaves the job store: an id under which a job is
    stored still has a job stored under it after any [create] and any
    [update_status].  A call on another id leaves the stored job as it was;
    [create] on the same id replaces it by the new queued job; and
    [update_status] on the same id keeps its [id], [data] and [created_at]. *)
Theorem jobs_are_never_removed :
  forall (self : JobStorage.t) (job_id : string) (job : ProcessJob.t),
    eval_state (JobStorage.get job_id) self = Some job ->
    (forall (other : string) (data : list string) (now : datetime),
       exists job',
         eval_state (JobStorage.get job_id)
           (exec_state (JobStorage.create other data now) self) = Some job'
         /\ (other <> job_id -> job' = job)
         /\ (other = job_id -> job' = ProcessJob.mk job_id "queued" data None now None))
    /\ (forall (other status : string) (result : option string) (now : datetime),
          exists job',
            eval_state (JobStorage.get job_id)
              (exec_state (JobStorage.update_status other status result now) self)
            = Some job'
            /\ ProcessJob.id job' = ProcessJob.id job
            /\ ProcessJob.data job' = ProcessJob.data job
            /\ ProcessJob.created_at job' = ProcessJob.created_at job
            /\ (other <> job_id -> job' = job)).
Proof.
  intros self job_id job Hget.
  unfold eval_state, exec_state, JobStorage.get, gets in *. simpl in Hget.
  split.
  - intros other data now. simpl.
    destruct (string_dec other job_id) as [->|N].
    + rewrite get_setitem_same. eexists.
      split; [reflexivity|]. split; [congruence | reflexivity].
    + rewrite get_setitem_other by congruence. exists job.
      split; [exact Hget|]. split; [reflexivity | contradiction].
  - intros other status result now. rewrite update_status_run.
    destruct (string_dec other job_id) as [->|N].
    + rewrite Hget. simpl. rewrite get_setitem_same.
      eexists. split; [reflexivity|]. simpl. repeat split; congruence.
    + destruct (PyDict.get other (JobStorage.jobs self)); simpl.
      * rewrite get_setitem_other by congruence. exists job. repeat split; assumption.
      * exists job. repeat split; assumption.
Qed.

Lemma jobs_are_never_removed_witness :
  exists job',
    eval_state (JobStorage.get "job-1")
      (exec_state (JobStorage.update_status "job-1" "queued" None 13) sample_jobs)
    = Some job'
    /\ ProcessJob.data job' = ["a"; "b"]%string.
Proof.
  destruct (jobs_are_never_removed sample_jobs "job-1"
              (ProcessJob.mk "job-1" "completed" ["a"; "b"]%string
                 (Some "Processed 2 items: a, b"%string) 10 (Some 12)) eq_refl)
    as [_ Hupdate].
  destruct (Hupdate "job-1" "queued" None 13)%string as (job' & G & _ & D & _).
  exists job'. split; [exact G | exact D].
Defined.

(** X13: a job id that collides with a stored one overwrites it: when the
    id derived from the uuid is already in the store, [start_background_job]
    replaces that job, whatever its status and result, by the new queued job,
    in the same place; the number of jobs does not grow. *)
Theorem colliding_job_id_overwrites :
  forall (w : World) (job_data : ProcessJobCreate.t) (background_tasks : BackgroundTasks)
         (uuid4_hex : string) (now : datetime) (old : ProcessJob.t),
    let job_id := ("job-" ++ substring 0 8 uuid4_hex)%string in
    let w' :=
      exec_state (start_background_job job_data background_tasks uuid4_hex now) w in
    eval_state (JobStorage.get job_id) (job_storage w) = Some old ->
    PyDict.keys (JobStorage.jobs (job_storage w'))
    = PyDict.keys (JobStorage.jobs (job_storage w))
    /\ eval_state (JobStorage.get job_id) (job_storage w')
       = Some (ProcessJob.mk job_id "queued" (ProcessJobCreate.data job_data) None now None).
Proof.
  intros w job_data background_tasks uuid4_hex now old job_id w' Hold. subst w'.
  unfold eval_state, JobStorage.get, gets in *. simpl in Hold.
  unfold exec_state, start_background_job. fold job_id.
  unfold bind. rewrite on_job_storage_run. simpl.
  split.
  - eapply keys_setitem_present. exact Hold.
  - apply get_setitem_same.
Qed.

Lemma colliding_job_id_overwrites_witness :
  eval_state (JobStorage.get "job-1")
    (job_storage
       (exec_state
          (start_background_job (ProcessJobCreate.mk ["x"]%string (1 # 2)) [] "1" 50)
          (mkWorld TaskStorage.init sample_jobs [])))
  = Some (ProcessJob.mk "job-1" "queued" ["x"]%string None 50 None).
Proof.
  destruct (colliding_job_id_overwrites (mkWorld TaskStorage.init sample_jobs [])
              (ProcessJobCreate.mk ["x"]%string (1 # 2)) [] "1" 50
              (ProcessJob.mk "job-1" "completed" ["a"; "b"]%string
                 (Some "Processed 2 items: a, b"%string) 10 (Some 12)) eq_refl)
    as [_ Hnew].
  exact Hnew.
Defined.

(** X14: [trigger_error] never fails on its table: for every integer code it
    raises an HTTPException, never a KeyError, and the status code raised is
    one of 400, 401, 403, 404, 500, 503. *)
Theorem trigger_error_raises_recognized_code :
  forall code : Z,
    exists e : HTTPException,
      trigger_error code = RaisedHTTPException e
      /\ In (status_code e) recognized_codes.
Proof.
  intros code. unfold trigger_error.
  destruct (PyDict.contains code error_messages) eqn:Hc.
  - unfold PyDict.contains in Hc. simpl negb. cbv iota.
    destruct (PyDict.get code error_messages) as [message|] eqn:E; [|discriminate].
    eexists. split; [reflexivity|]. simpl.
    apply get_in_entries in E. apply (in_map fst) in E. exact E.
  - simpl. eexists. split; [reflexivity|]. simpl. tauto.
Qed.

(** ** Order and statuses under mutation *)

Lemma values_setitem_same_image {K V B : Type} `{Hashable K} (f : V -> B) (k : K)
    (v v' : V) (d : PyDict.t K V) :
  PyDict.get k d = Some v -> f v' = f v ->
  map f (PyDict.values (PyDict.setitem k v' d)) = map f (PyDict.values d).
Proof.
  intros Hget Hf. induction d as [|[k0 v0] d IH]; simpl in *; [discriminate|].
  destruct (key_eq_dec k k0) as [E|N]; simpl.
  - injection Hget as ->. now rewrite Hf.
  - f_equal. auto.
Qed.

Lemma values_delitem_by_id (k : Z) (d : PyDict.t Z Task.t) :
  Forall (fun kv => Task.id (snd kv) = fst kv) d ->
  PyDict.values (PyDict.delitem k d)
  = filter (fun task => negb (Z.eqb (Task.id task) k)) (PyDict.values d).
Proof.
  induction 1 as [|[k0 v0] d Hkv Hd IH]; simpl in *; [reflexivity|].
  rewrite Hkv. destruct (key_eq_dec k k0) as [->|N].
  - rewrite Z.eqb_refl. simpl. exact IH.
  - destruct (Z.eqb_spec k0 k) as [E|_]; [congruence|]. simpl. now rewrite IH.
Qed.

(** X15: mutations keep the insertion order of the listing.  In every store
    reached from a fresh one, [update] leaves the ids of [get_all] in the same
    order (the updated task keeps its place), and [delete] removes from the
    listing exactly the task with the given id, the others staying in
    order. *)
Theorem update_and_delete_keep_listing_order :
  forall (cs : list TaskCall) (task_id : Z) (title description status : option string)
         (now : datetime),
    let self := exec_state (calls cs) TaskStorage.init in
    map Task.id
      (eval_state (TaskStorage.get_all None)
         (exec_state (TaskStorage.update task_id title description status now) self))
    = map Task.id (eval_state (TaskStorage.get_all None) self)
    /\ eval_state (TaskStorage.get_all None)
         (exec_state (TaskStorage.delete task_id) self)
       = filter (fun task => negb (Z.eqb (Task.id task) task_id))
           (eval_state (TaskStorage.get_all None) self).
Proof.
  intros cs task_id title description status now self.
  assert (Hok : storage_ok self) by (apply calls_ok, storage_ok_init).
  destruct Hok as [_ Hb].
  unfold eval_state, exec_state. rewrite !get_all_unfiltered. simpl.
  rewrite update_run, delete_run.
  destruct (PyDict.get task_id (TaskStorage.tasks self)) as [task|] eqn:E; simpl.
  - split.
    + apply (values_setitem_same_image Task.id task_id task); [exact E | reflexivity].
    + apply values_delitem_by_id. eapply Forall_impl; [|exact Hb]. simpl. tauto.
  - split; [reflexivity|].
    rewrite <- (delitem_absent task_id (TaskStorage.tasks self) E) at 1.
    apply values_delitem_by_id. eapply Forall_impl; [|exact Hb]. simpl. tauto.
Qed.

(** X16: [get_job_status] on an id under which no job is stored raises the
    404 HTTPException "Job with id <id> not found" and leaves the state as it
    was; on a stored id it answers with the stored job, state unchanged. *)
Theorem get_job_status_found_or_404 :
  forall (w : World) (job_id : string),
    match eval_state (JobStorage.get job_id) (job_storage w) with
    | None =>
        get_job_status job_id w
        = (inl (mkHTTPException 404 ("Job with id " ++ job_id ++ " not found")%string), w)
    | Some job => get_job_status job_id w = (inr job, w)
    end.
Proof.
  intros w job_id. unfold get_job_status, bind, JobStorage.get.
  rewrite on_job_storage_read. unfold eval_state, gets. simpl.
  destruct (PyDict.get job_id (JobStorage.jobs (job_storage w))); reflexivity.
Qed.

Lemma statuses_after_setitem (k : Z) (task : Task.t) (d : PyDict.t Z Task.t) :
  Forall (fun t => In (Task.status t) task_statuses) (PyDict.values d) ->
  In (Task.status task) task_statuses ->
  Forall (fun t => In (Task.status t) task_statuses)
    (PyDict.values (PyDict.setitem k task d)).
Proof. intros A B. now apply Forall_values_setitem. Qed.

(** X17: the handlers keep the stored statuses inside the enum: when every
    stored task has one of the statuses pending, in_progress, completed, this
    still holds after [create_task] with a body whose status is one of them,
    after [update_task] with a body whose status is omitted or one of them,
    and after [delete_task]. *)
Theorem handlers_keep_statuses_in_enum :
  forall (w : World),
    Forall (fun task => In (Task.status task) task_statuses)
      (PyDict.values (TaskStorage.tasks (task_storage w))) ->
    (forall (task_data : TaskCreate.t) (now : datetime),
       In (TaskCreate.status task_data) task_statuses ->
       Forall (fun task => In (Task.status task) task_statuses)
         (PyDict.values
            (TaskStorage.tasks (task_storage (exec_state (create_task task_data now) w)))))
    /\ (forall (task_id : Z) (task_data : TaskUpdate.t) (now : datetime),
          (forall s, TaskUpdate.status task_data = Some s -> In s task_statuses) ->
          Forall (fun task => In (Task.status task) task_statuses)
            (PyDict.values
               (TaskStorage.tasks
                  (task_storage (exec_state (update_task task_id task_data now) w)))))
    /\ (forall (task_id : Z),
          Forall (fun task => In (Task.status task) task_statuses)
            (PyDict.values
               (TaskStorage.tasks (task_storage (exec_state (delete_task task_id) w))))).
Proof.
  intros w Hall. split; [|split].
  - intros task_data now Hs.
    unfold exec_state, create_task. rewrite on_task_storage_run.
    unfold exec_state. rewrite create_run. simpl.
    now apply statuses_after_setitem.
  - intros task_id task_data now Hs. rewrite update_task_on_storage.
    unfold exec_state. rewrite update_run.
    destruct (PyDict.get task_id (TaskStorage.tasks (task_storage w))) as [task|] eqn:E;
      simpl; [|exact Hall].
    apply statuses_after_setitem; [exact Hall|]. simpl.
    destruct (TaskUpdate.status task_data) as [s|]; [now apply Hs|].
    rewrite Forall_forall in Hall. apply Hall. eapply get_in_values. exact E.
  - intros task_id. unfold exec_state, delete_task, bind.
    rewrite on_task_storage_run. unfold exec_state, eval_state. rewrite delete_run.
    destruct (PyDict.get task_id (TaskStorage.tasks (task_storage w))); simpl.
    + now apply Forall_values_delitem.
    + exact Hall.
Qed.

Lemma handlers_keep_statuses_in_enum_witness :
  Forall (fun task => In (Task.status task) task_statuses)
    (PyDict.values
       (TaskStorage.tasks
          (task_storage
             (exec_state
                (update_task 2 (TaskUpdate.mk None None (Some "pending"%string)) 40)
                sample_world)))).
Proof.
  assert (Hall : Forall (fun task => In (Task.status task) task_statuses)
                   (PyDict.values (TaskStorage.tasks (task_storage sample_world)))).
  { repeat constructor; simpl; tauto. }
  destruct (handlers_keep_statuses_in_enum sample_world Hall) as (_ & Hupdate & _).
  apply Hupdate. intros s E. injection E as <-. simpl. tauto.
Defined.
